(** * MemoryManager: retrieval-augmented chat over a memory engine

    A shallow embedding of [memory_manager.py] (class [MemoryManager]).

    The manager is a facade over three external collaborators: the memory
    engine ([self.memory], with [add], [search], [get_all], [delete]), the prompt
    template service ([get_prompt]) and the generation endpoint reached with
    [requests.post].  They are kept abstract: an [Externals] record gives, for
    each of them, a state-passing function over a world [W] that either
    returns or raises.  The methods of the class are written in a state and
    exception monad over that world; every external call is also appended to
    a trace, so that theorems can count the calls the code makes.

    Conventions.
    - A Python [str] is a [string] holding its UTF-8 bytes.
    - An [int] is a [Z]; [range(n)] is empty for [n <= 0].
    - [Optional[T]] is [option T]; a dictionary read with [.get] or [in] is a
      record of optional fields or an association list.
    - Values that come from outside keep the shapes the code can meet: a
      reply body is any JSON value, the ['chat_options'] of the configuration
      may be something else than a dictionary, a dictionary of the engine may
      hold [None] under ['results'], a created record may lack ['memory'].
    - An exception is a class and the text [str(e)]; only subclasses of
      [Exception] are modelled, which is all that [except Exception] is about.
      The texts of [TypeError] and [AttributeError] are those of CPython 3.11
      to 3.13.
    - Calls to [self.logger] only write log lines and are left out, but the
      expressions their messages evaluate are kept where they can raise. *)

From Stdlib Require Import String Ascii List ZArith QArith Lia Bool DecimalString.
Import ListNotations.
Local Open Scope string_scope.
Local Open Scope Z_scope.

Set Implicit Arguments.

(** ** Python strings *)

Module Py.

(** The line feed, written [\n] in the source. *)
Definition nl : string := String "010" EmptyString.

(** The bullet U+2022 of the context lines, as its three UTF-8 bytes. *)
Definition bullet : string :=
  String "226" (String "128" (String "162" EmptyString)).

(** [sep.join(parts)]. *)
Fixpoint join (sep : string) (parts : list string) : string :=
  match parts with
  | [] => ""
  | [p] => p
  | p :: rest => p ++ sep ++ join sep rest
  end.

(** Truthiness of a [str]: the empty string is falsy. *)
Definition truthy_str (s : string) : bool :=
  match s with EmptyString => false | String _ _ => true end.

(** [str(n)] for an [int]. *)
Definition str_of_int (n : Z) : string := NilZero.string_of_int (Z.to_int n).

(** [repr(s)] for a key that has no quote in it, as [KeyError] prints it. *)
Definition repr_key (k : string) : string := "'" ++ k ++ "'".

(** One-byte white space of [str.isspace]: U+0009..U+000D, U+001C..U+001F
    and the space. *)
Definition is_space1 (a : ascii) : bool :=
  let n := Z.of_nat (nat_of_ascii a) in
  ((9 <=? n) && (n <=? 13)) || ((28 <=? n) && (n <=? 32)).

(** Two-byte white space: U+0085 and U+00A0, both with lead byte C2. *)
Definition is_space2 (a b : ascii) : bool :=
  (Z.of_nat (nat_of_ascii a) =? 194) &&
  let n := Z.of_nat (nat_of_ascii b) in (n =? 133) || (n =? 160).

(** Three-byte white space: U+1680, U+2000..U+200A, U+2028, U+2029, U+202F,
    U+205F and U+3000. *)
Definition is_space3 (a b c : ascii) : bool :=
  let x := Z.of_nat (nat_of_ascii a) in
  let y := Z.of_nat (nat_of_ascii b) in
  let z := Z.of_nat (nat_of_ascii c) in
  ((x =? 225) && (y =? 154) && (z =? 128))
  || ((x =? 226) && (y =? 128)
      && (((128 <=? z) && (z <=? 138)) || (z =? 168) || (z =? 169) || (z =? 175)))
  || ((x =? 226) && (y =? 129) && (z =? 159))
  || ((x =? 227) && (y =? 128) && (z =? 128)).

(** [s.lstrip()]: drop white-space characters from the front. *)
Fixpoint lstrip (s : string) : string :=
  match s with
  | EmptyString => EmptyString
  | String a r1 =>
      if is_space1 a then lstrip r1
      else match r1 with
           | EmptyString => s
           | String b r2 =>
               if is_space2 a b then lstrip r2
               else match r2 with
                    | EmptyString => s
                    | String c r3 => if is_space3 a b c then lstrip r3 else s
                    end
           end
  end.

Fixpoint rev_onto (s acc : string) : string :=
  match s with
  | EmptyString => acc
  | String a r => rev_onto r (String a acc)
  end.

Definition rev (s : string) : string := rev_onto s EmptyString.

(** The same scan on a reversed string: the bytes of a character come last
    byte first.  A lead byte C2, E1, E2 or E3 never ends a longer character,
    so a match at the end of well-formed UTF-8 is a whole character. *)
Fixpoint lstrip_rev (s : string) : string :=
  match s with
  | EmptyString => EmptyString
  | String a r1 =>
      if is_space1 a then lstrip_rev r1
      else match r1 with
           | EmptyString => s
           | String b r2 =>
               if is_space2 b a then lstrip_rev r2
               else match r2 with
                    | EmptyString => s
                    | String c r3 => if is_space3 c b a then lstrip_rev r3 else s
                    end
           end
  end.

(** [s.strip()]. *)
Definition strip (s : string) : string := rev (lstrip_rev (rev (lstrip s))).

(** [needle in hay] on strings. *)
Fixpoint str_in (needle hay : string) : bool :=
  if String.prefix needle hay then true
  else match hay with
       | EmptyString => false
       | String _ rest => str_in needle rest
       end.

End Py.

(** ** Exceptions and outcomes *)

(** The exception classes that occur; the last five are those of
    [requests.exceptions], all subclasses of [RequestException]
    ([JSONDecodeError] since requests 2.27). *)
Inductive exn_class : Type :=
  | KeyError | ValueError | RuntimeError | TypeError | AttributeError
  | RequestException | HTTPError | ConnectionError | Timeout | JSONDecodeError.

Record exn : Type := Exn { exn_cls : exn_class; exn_str : string }.

(** [isinstance(e, requests.exceptions.RequestException)]. *)
Definition is_RequestException (e : exn) : bool :=
  match exn_cls e with
  | RequestException | HTTPError | ConnectionError | Timeout | JSONDecodeError => true
  | KeyError | ValueError | RuntimeError | TypeError | AttributeError => false
  end.

Inductive outcome (A : Type) : Type :=
  | Ok (a : A)
  | Raise (e : exn).
Arguments Ok {A} a.
Arguments Raise {A} e.

Definition is_ok {A} (r : outcome A) : bool :=
  match r with Ok _ => true | Raise _ => false end.

(** ** Data model *)

(** A JSON value, as [json.load] and [response.json()] decode it; an object
    is the list of the items of the dictionary. *)
#[local] Unset Elimination Schemes.
Inductive json : Type :=
  | JNull
  | JBool (b : bool)
  | JInt (n : Z)
  | JFloat (q : Q)
  | JString (s : string)
  | JArray (items : list json)
  | JObject (items : list (string * json)).
#[local] Set Elimination Schemes.

(** [type(v).__name__]. *)
Definition type_name (v : json) : string :=
  match v with
  | JNull => "NoneType"
  | JBool _ => "bool"
  | JInt _ => "int"
  | JFloat _ => "float"
  | JString _ => "str"
  | JArray _ => "list"
  | JObject _ => "dict"
  end.

(** The type of a decoded value that is not a dictionary. *)
Inductive other_type : Type := TNone | TBool | TInt | TFloat | TStr | TList.

Definition other_name (t : other_type) : string :=
  match t with
  | TNone => "NoneType"
  | TBool => "bool"
  | TInt => "int"
  | TFloat => "float"
  | TStr => "str"
  | TList => "list"
  end.

(** A memory record of the engine: keys ['id'] and ['memory']. *)
Record MemoryRecord : Type := { mem_id : string; memory : string }.

(** The dictionary the engine returns; the key ['results'] may be missing. *)
Record MemResult : Type := { results : option (list MemoryRecord) }.

(** What [memory.search] and [memory.get_all] hand back when they return: a
    dictionary whose ['results'], if there, is a list of records; a dictionary
    that holds [None] under ['results']; or [None] itself. *)
Inductive reply : Type :=
  | Listed (d : MemResult)
  | NullResults
  | NoDict.

(** An entry of a dictionary: no such key, the value [None], or a value. *)
Inductive entry (A : Type) : Type :=
  | Missing
  | Null
  | Value (a : A).
Arguments Missing {A}.
Arguments Null {A}.
Arguments Value {A} a.

(** A record of the dictionary [memory.add] returns; ['memory'] may be
    missing from it. *)
Record AddRecord : Type := { added_id : string; added_memory : option string }.

(** The dictionary [memory.add] returns. *)
Record AddResult : Type := { add_results : entry (list AddRecord) }.

Definition metadata_t : Type := list (string * string).

(** [config['memory_config']['llm']['config']]. *)
Record LlmConfig : Type :=
  { ollama_base_url : option string; model : option string; max_tokens : option Z }.

Record LlmSection : Type := { llm_config : option LlmConfig }.

Record MemoryConfig : Type := { llm : option LlmSection }.

Record ChatOptions : Type :=
  { temperature : option Q;
    max_context_memories : option Z;
    response_timeout : option Z }.

Definition no_chat_options : ChatOptions :=
  {| temperature := None; max_context_memories := None; response_timeout := None |}.

(** The value under ['chat_options'], when the key is there: a dictionary, or
    a value of another type. *)
Inductive chat_section : Type :=
  | ChatMap (co : ChatOptions)
  | ChatOther (t : other_type).

Record ProcessingOptions : Type := { po_user_id : option string }.

(** The configuration once loaded; ['memory_config'] is there, or
    [_initialize_memory] would have raised. *)
Record Config : Type :=
  { memory_config : MemoryConfig;
    chat_options : option chat_section;
    processing_options : option ProcessingOptions }.

(** The body of the generation request. *)
Record GenOptions : Type := { opt_temperature : Q; opt_num_predict : Z }.

Record Payload : Type :=
  { pl_model : string; pl_prompt : string; pl_stream : bool; pl_options : GenOptions }.

(** What decoding a body gives: a value, or the text of the
    [JSONDecodeError] when the body is not JSON. *)
Inductive decoded : Type :=
  | Json (v : json)
  | NotJson (msg : string).

(** What [requests.post] returns: the status line, the URL and the body as
    [response.json()] decodes it. *)
Record Response : Type :=
  { status_code : Z;
    reason : string;
    url : string;
    json_body : decoded }.

(** Lookup in a dictionary kept as an association list. *)
Fixpoint dict_get {A : Type} (k : string) (d : list (string * A)) : option A :=
  match d with
  | [] => None
  | (k', v) :: rest => if String.eqb k k' then Some v else dict_get k rest
  end.

(** ** External calls and their trace *)

Inductive call : Type :=
  | CAdd (fact user_id : string) (metadata : option metadata_t)
  | CSearch (query user_id : string) (limit : Z)
  | CGetAll (user_id : string)
  | CDelete (memory_id : string)
  | CGetPrompt (category name : string) (bindings : list (string * string))
  | CPost (url : string) (json : Payload) (timeout : Z)
  | CSleep (seconds : Z).

(** One external call and whether it returned ([true]) or raised. *)
Record event : Type := Ev { ev_call : call; ev_ok : bool }.

(** The collaborators, as state-passing functions over a world [W]. *)
Record Externals (W : Type) : Type :=
  { memory_add : string -> string -> option metadata_t -> W -> outcome (option AddResult) * W;
    memory_search : string -> string -> Z -> W -> outcome reply * W;
    memory_get_all : string -> W -> outcome reply * W;
    memory_delete : string -> W -> outcome unit * W;
    get_prompt : string -> string -> list (string * string) -> W -> outcome string * W;
    requests_post : string -> Payload -> Z -> W -> outcome Response * W;
    time_sleep : Z -> W -> W }.

Record state (W : Type) : Type := St { world : W; trace : list event }.

(** ** The monad of the methods *)

Definition M (W A : Type) : Type := state W -> outcome A * state W.

Definition ret {W A} (a : A) : M W A := fun s => (Ok a, s).

Definition raise {W A} (e : exn) : M W A := fun s => (Raise e, s).

Definition bind {W A B} (m : M W A) (k : A -> M W B) : M W B :=
  fun s => match m s with
           | (Ok a, s') => k a s'
           | (Raise e, s') => (Raise e, s')
           end.

(** [try: m  except Exception as e: h e]. *)
Definition try_catch {W A} (m : M W A) (h : exn -> M W A) : M W A :=
  fun s => match m s with
           | (Ok a, s') => (Ok a, s')
           | (Raise e, s') => h e s'
           end.

(** [try: m  except C as e: h e] for a class test [C]: other exceptions pass. *)
Definition try_catch_if {W A} (C : exn -> bool) (m : M W A) (h : exn -> M W A) : M W A :=
  try_catch m (fun e => if C e then h e else raise e).

(** An external call: run it on the world and record it. *)
Definition extern {W A} (c : call) (f : W -> outcome A * W) : M W A :=
  fun s => let (r, w') := f (world s) in
           (r, {| world := w'; trace := trace s ++ [Ev c (is_ok r)] |}).

Declare Scope py_scope.
Delimit Scope py_scope with py.
Notation "x <- m ;; k" := (bind m (fun x => k))
  (at level 61, m at next level, right associativity) : py_scope.
Notation "m ;;; k" := (bind m (fun _ => k))
  (at level 61, right associativity) : py_scope.
Local Open Scope py_scope.

(** [for x in xs: body x], where the body may [return]: it yields [Some v] to
    return [v] from the method and [None] to go on; [after] is the code that
    follows the loop. *)
Fixpoint for_return {W X R} (xs : list X) (body : X -> M W (option R)) (after : M W R)
  : M W R :=
  match xs with
  | [] => after
  | x :: rest =>
      r <- body x ;;
      match r with
      | Some v => ret v
      | None => for_return rest body after
      end
  end.

(** [for x in xs: acc = body x acc], for a loop that updates a local. *)
Fixpoint for_acc {W X R} (xs : list X) (acc : R) (body : X -> R -> M W R) : M W R :=
  match xs with
  | [] => ret acc
  | x :: rest => acc' <- body x acc ;; for_acc rest acc' body
  end.

(** [range(n)]. *)
Definition range (n : Z) : list Z := map Z.of_nat (seq 0 (Z.to_nat n)).

(** [a or b] on an [Optional[str]]: [None] and the empty string are falsy. *)
Definition or_str (a : option string) (b : string) : string :=
  match a with
  | Some s => if Py.truthy_str s then s else b
  | None => b
  end.

(** [a or b] on an [Optional[int]]: [None] and [0] are falsy. *)
Definition or_int (a : option Z) (b : Z) : Z :=
  match a with
  | Some n => if n =? 0 then b else n
  | None => b
  end.

(** [a or b] where [b] is an expression that may raise: it is evaluated only
    when [a] is falsy. *)
Definition or_else {W} (a : option Z) (b : M W Z) : M W Z :=
  match a with
  | Some n => if n =? 0 then b else ret n
  | None => b
  end.

(** [d.get(key, default)] on an optional field. *)
Definition get_or {A} (field : option A) (default : A) : A :=
  match field with Some v => v | None => default end.

(** [d[key]] on an optional field: [KeyError(key)] when it is missing. *)
Definition subscript {W A} (field : option A) (key : string) : M W A :=
  match field with
  | Some v => ret v
  | None => raise (Exn KeyError (Py.repr_key key))
  end.

(** Truthiness of [r.get('results')]: a missing key and an empty list are
    falsy. *)
Definition has_results (r : MemResult) : bool :=
  match results r with
  | Some (_ :: _) => true
  | _ => false
  end.

(** Truthiness of [r and r.get('results')] for an optional dictionary.  A
    dictionary with the key is not empty, so it is truthy itself. *)
Definition truthy_results (r : option MemResult) : bool :=
  match r with
  | Some d => has_results d
  | None => false
  end.

(** [config.get('chat_options', {}).get(key, default)]: the default when the
    section or the key is missing, [AttributeError] when the section is not a
    dictionary. *)
Definition section_get {W A} (section : option chat_section) (field : ChatOptions -> option A)
    (default : A) : M W A :=
  match section with
  | None => ret default
  | Some (ChatMap co) => ret (get_or (field co) default)
  | Some (ChatOther t) =>
      raise (Exn AttributeError ("'" ++ other_name t ++ "' object has no attribute 'get'"))
  end.

(** The first record of the dictionary [memory.add] returned, when
    [result and result.get('results')] is truthy. *)
Definition first_added (result : option AddResult) : option AddRecord :=
  match result with
  | Some d =>
      match add_results d with
      | Value (r :: _) => Some r
      | _ => None
      end
  | None => None
  end.

(** The debug line of [search_memories] and [get_all_memories] evaluates
    [len(results.get('results', []))]; then [results] is returned. *)
Definition logged {W} (results : reply) : M W (option MemResult) :=
  match results with
  | Listed d => ret (Some d)
  | NullResults => raise (Exn TypeError "object of type 'NoneType' has no len()")
  | NoDict => raise (Exn AttributeError "'NoneType' object has no attribute 'get'")
  end.

(** ['response' in result]. *)
Definition has_response {W} (result : json) : M W bool :=
  match result with
  | JObject items =>
      ret (match dict_get "response" items with Some _ => true | None => false end)
  | JArray items =>
      ret (existsb (fun v => match v with
                             | JString s => String.eqb s "response"
                             | _ => false
                             end) items)
  | JString s => ret (Py.str_in "response" s)
  | _ => raise (Exn TypeError
                  ("argument of type '" ++ type_name result ++ "' is not iterable"))
  end.

(** [result['response']]. *)
Definition response_item {W} (result : json) : M W json :=
  match result with
  | JObject items => subscript (dict_get "response" items) "response"
  | JArray _ => raise (Exn TypeError "list indices must be integers or slices, not str")
  | JString _ => raise (Exn TypeError "string indices must be integers, not 'str'")
  | _ => raise (Exn TypeError
                  ("'" ++ type_name result ++ "' object is not subscriptable"))
  end.

(** [v.strip()]. *)
Definition strip_value {W} (v : json) : M W string :=
  match v with
  | JString s => ret (Py.strip s)
  | _ => raise (Exn AttributeError
                  ("'" ++ type_name v ++ "' object has no attribute 'strip'"))
  end.

(** ** The class [MemoryManager] *)

(** The attributes the methods read: [self.config] and [self.user_id]. *)
Record MemoryManager : Type := { self_config : Config; self_user_id : string }.

(** [__init__], after the configuration is loaded and the engine built:
    [self.user_id = config.get('processing_options', {}).get('user_id', 'default')]. *)
Definition init (cfg : Config) : MemoryManager :=
  {| self_config := cfg;
     self_user_id :=
       match processing_options cfg with
       | Some po => get_or (po_user_id po) "default"
       | None => "default"
       end |}.

Section Methods.

Context {W : Type} (E : Externals W) (self : MemoryManager).

(** [time.sleep(seconds)]. *)
Definition sleep (seconds : Z) : M W unit :=
  extern (CSleep seconds) (fun w => (Ok tt, time_sleep E seconds w)).

(** [add_fact(fact, user_id=None, metadata=None, max_retries=3)].  The
    message of the first log line reads [result['results'][0]['memory']]
    inside the [try]. *)
Definition add_fact (fact : string) (user_id : option string)
    (metadata : option metadata_t) (max_retries : Z) : M W (option AddResult) :=
  let user_id := or_str user_id (self_user_id self) in
  for_return (range max_retries)
    (fun attempt =>
       try_catch
         (result <- extern (CAdd fact user_id metadata)
                           (memory_add E fact user_id metadata) ;;
          match first_added result with
          | Some record =>
              subscript (added_memory record) "memory" ;;;
              ret (Some result)
          | None => ret (Some result)
          end)
         (fun e =>
            if attempt <? max_retries - 1
            then sleep 2 ;;; ret None
            else ret (Some None)))
    (ret None).

(** [search_memories(query, user_id=None, limit=5)]. *)
Definition search_memories (query : string) (user_id : option string) (limit : Z)
  : M W (option MemResult) :=
  let user_id := or_str user_id (self_user_id self) in
  try_catch
    (results <- extern (CSearch query user_id limit)
                       (memory_search E query user_id limit) ;;
     logged results)
    (fun e => ret None).

(** [get_all_memories(user_id=None)]. *)
Definition get_all_memories (user_id : option string) : M W (option MemResult) :=
  let user_id := or_str user_id (self_user_id self) in
  try_catch
    (results <- extern (CGetAll user_id) (memory_get_all E user_id) ;;
     logged results)
    (fun e => ret None).

(** [reset_memories(user_id=None)]. *)
Definition reset_memories (user_id : option string) : M W Z :=
  let user_id := or_str user_id (self_user_id self) in
  try_catch
    (all_memories <- get_all_memories (Some user_id) ;;
     if negb (truthy_results all_memories)
     then ret 0
     else
       deleted_count <-
         for_acc
           (match all_memories with
            | Some d => get_or (results d) []
            | None => []
            end)
           0
           (fun memory deleted_count =>
              try_catch
                (extern (CDelete (mem_id memory)) (memory_delete E (mem_id memory)) ;;;
                 ret (deleted_count + 1))
                (fun e => ret deleted_count)) ;;
       ret deleted_count)
    (fun e => ret 0).

(** The context block of [chat] (the [if]/[else] under "Format context"). *)
Definition format_context (user_id : string) (memories : option MemResult) : string :=
  if negb (truthy_results memories)
  then "No specific information available about " ++ user_id ++ "."
  else
    let memory_facts :=
      map memory (match memories with
                  | Some d => get_or (results d) []
                  | None => []
                  end) in
    ("Facts about " ++ user_id ++ ":" ++ Py.nl)
    ++ Py.join Py.nl (map (fun fact => Py.bullet ++ " " ++ fact) memory_facts).

(** The prompt of [chat] (the nested [try] under "Get chat prompt"). *)
Definition resolve_prompt (user_id context query : string) : M W string :=
  try_catch
    (extern (CGetPrompt "chat" "user_interaction"
               [("user_id", user_id); ("context", context); ("query", query)])
            (get_prompt E "chat" "user_interaction"
               [("user_id", user_id); ("context", context); ("query", query)]))
    (fun e =>
       try_catch
         (extern (CGetPrompt "chat" "error_response"
                    [("query", query); ("error_message", exn_str e)])
                 (get_prompt E "chat" "error_response"
                    [("query", query); ("error_message", exn_str e)]))
         (fun _ =>
            ret ("I apologize, but I'm having trouble processing your request: "
                 ++ query))).

(** [Response.raise_for_status()] of the requests library: [HTTPError] for a
    status from 400 to 599, nothing otherwise. *)
Definition raise_for_status (response : Response) : M W unit :=
  let status := status_code response in
  if (400 <=? status) && (status <? 500)
  then raise (Exn HTTPError
                (Py.str_of_int status ++ " Client Error: " ++ reason response
                 ++ " for url: " ++ url response))
  else if (500 <=? status) && (status <? 600)
  then raise (Exn HTTPError
                (Py.str_of_int status ++ " Server Error: " ++ reason response
                 ++ " for url: " ++ url response))
  else ret tt.

(** [response.json()] of the requests library. *)
Definition response_json (response : Response) : M W json :=
  match json_body response with
  | Json v => ret v
  | NotJson msg => raise (Exn JSONDecodeError msg)
  end.

(** [_call_ollama_api(prompt)]. *)
Definition _call_ollama_api (prompt : string) : M W string :=
  let chat_config := chat_options (self_config self) in
  llm_section <- subscript (llm (memory_config (self_config self))) "llm" ;;
  memory_config <- subscript (llm_config llm_section) "config" ;;
  base_url <- subscript (ollama_base_url memory_config) "ollama_base_url" ;;
  let ollama_url := base_url ++ "/api/generate" in
  model_name <- subscript (model memory_config) "model" ;;
  temp <- section_get chat_config temperature 0.7%Q ;;
  let payload :=
    {| pl_model := model_name;
       pl_prompt := prompt;
       pl_stream := false;
       pl_options :=
         {| opt_temperature := temp;
            opt_num_predict := get_or (max_tokens memory_config) 2000 |} |} in
  timeout <- section_get chat_config response_timeout 60 ;;
  try_catch_if is_RequestException
    (response <- extern (CPost ollama_url payload timeout)
                        (requests_post E ollama_url payload timeout) ;;
     raise_for_status response ;;;
     result <- response_json response ;;
     found <- has_response result ;;
     if found : bool
     then text <- response_item result ;; strip_value text
     else ret "Sorry, I couldn't generate a response.")
    (fun e => raise e).

(** The value [max_context_memories] falls back to:
    [self.config.get('chat_options', {}).get('max_context_memories', 5)]. *)
Definition default_max_context_memories : M W Z :=
  section_get (chat_options (self_config self)) max_context_memories 5.

(** The body of the [try] of [chat]. *)
Definition chat_body (query user_id : string) (max_context_memories : Z) : M W string :=
  memories <- search_memories query (Some user_id) max_context_memories ;;
  let context := format_context user_id memories in
  prompt <- resolve_prompt user_id context query ;;
  _call_ollama_api prompt.

(** [chat(query, user_id=None, max_context_memories=None)].  The two defaults
    are resolved before the [try]. *)
Definition chat (query : string) (user_id : option string)
    (max_context_memories : option Z) : M W string :=
  let user_id := or_str user_id (self_user_id self) in
  max_context_memories <- or_else max_context_memories default_max_context_memories ;;
  try_catch
    (chat_body query user_id max_context_memories)
    (fun e => ret ("Sorry, I encountered an error: " ++ exn_str e)).

End Methods.

(** ** A scripted world, for running the methods on concrete inputs *)

Module Mock.

(** The engine keeps [(user, record)] pairs.  Writes follow a script, the
    other collaborators answer from fixed fields. *)
Record world : Type :=
  { store : list (string * MemoryRecord);
    add_script : list (outcome (option AddResult));
    search_error : option exn;
    delete_failing : list string;
    templates : list (string * string);
    http : outcome Response }.

Definition records_of (user : string) (st : list (string * MemoryRecord)) : list MemoryRecord :=
  map snd (filter (fun p => String.eqb (fst p) user) st).

Definition mentions (ids : list string) (i : string) : bool :=
  existsb (String.eqb i) ids.

Definition without (i : string) (st : list (string * MemoryRecord))
  : list (string * MemoryRecord) :=
  filter (fun p => negb (String.eqb (mem_id (snd p)) i)) st.

Definition set_store (w : world) (st : list (string * MemoryRecord)) : world :=
  {| store := st; add_script := add_script w; search_error := search_error w;
     delete_failing := delete_failing w; templates := templates w; http := http w |}.

Definition set_script (w : world) (sc : list (outcome (option AddResult))) : world :=
  {| store := store w; add_script := sc; search_error := search_error w;
     delete_failing := delete_failing w; templates := templates w; http := http w |}.

Definition set_search_error (w : world) (e : option exn) : world :=
  {| store := store w; add_script := add_script w; search_error := e;
     delete_failing := delete_failing w; templates := templates w; http := http w |}.

Definition set_delete_failing (w : world) (ids : list string) : world :=
  {| store := store w; add_script := add_script w; search_error := search_error w;
     delete_failing := ids; templates := templates w; http := http w |}.

Definition set_templates (w : world) (ts : list (string * string)) : world :=
  {| store := store w; add_script := add_script w; search_error := search_error w;
     delete_failing := delete_failing w; templates := ts; http := http w |}.

Definition set_http (w : world) (r : outcome Response) : world :=
  {| store := store w; add_script := add_script w; search_error := search_error w;
     delete_failing := delete_failing w; templates := templates w; http := r |}.

(** The records a returned dictionary stands for, with the fact itself where
    the record has no text. *)
Definition created (fact : string) (r : option AddResult) : list MemoryRecord :=
  match r with
  | Some {| add_results := Value l |} =>
      map (fun a => {| mem_id := added_id a; memory := get_or (added_memory a) fact |}) l
  | _ => []
  end.

Definition add (fact user : string) (meta : option metadata_t) (w : world)
  : outcome (option AddResult) * world :=
  match add_script w with
  | [] => (Raise (Exn RuntimeError "engine unavailable"), w)
  | Raise e :: sc => (Raise e, set_script w sc)
  | Ok r :: sc =>
      (Ok r, set_script (set_store w (store w ++ map (pair user) (created fact r))) sc)
  end.

Definition search (query user : string) (limit : Z) (w : world)
  : outcome reply * world :=
  match search_error w with
  | Some e => (Raise e, w)
  | None =>
      if limit <? 0
      then (Raise (Exn ValueError "limit must be non-negative"), w)
      else (Ok (Listed {| results := Some (firstn (Z.to_nat limit)
                                              (records_of user (store w))) |}), w)
  end.

Definition get_all (user : string) (w : world) : outcome reply * world :=
  (Ok (Listed {| results := Some (records_of user (store w)) |}), w).

Definition delete (i : string) (w : world) : outcome unit * world :=
  if mentions (delete_failing w) i
  then (Raise (Exn RuntimeError ("cannot delete " ++ i)), w)
  else (Ok tt, set_store w (without i (store w))).

Definition render (bindings : list (string * string)) : string :=
  String.concat "" (map (fun kv => Py.nl ++ fst kv ++ "=" ++ snd kv) bindings).

Definition prompt (category name : string) (bindings : list (string * string)) (w : world)
  : outcome string * world :=
  match dict_get name (templates w) with
  | Some t => (Ok (t ++ render bindings), w)
  | None => (Raise (Exn KeyError (Py.repr_key name)), w)
  end.

Definition post (u : string) (p : Payload) (timeout : Z) (w : world)
  : outcome Response * world :=
  (http w, w).

Definition E : Externals world :=
  {| memory_add := add;
     memory_search := search;
     memory_get_all := get_all;
     memory_delete := delete;
     get_prompt := prompt;
     requests_post := post;
     time_sleep := fun _ w => w |}.

(** The same collaborators with an engine whose writes always fail. *)
Definition E_down : Externals world :=
  {| memory_add := fun _ _ _ w => (Raise (Exn ConnectionError "engine is down"), w);
     memory_search := search;
     memory_get_all := get_all;
     memory_delete := delete;
     get_prompt := prompt;
     requests_post := post;
     time_sleep := fun _ w => w |}.

(** The same collaborators with an engine that never fails to delete. *)
Definition E_reliable : Externals world :=
  {| memory_add := add;
     memory_search := search;
     memory_get_all := get_all;
     memory_delete := fun i w => (Ok tt, set_store w (without i (store w)));
     get_prompt := prompt;
     requests_post := post;
     time_sleep := fun _ w => w |}.


(** The same collaborators with an engine whose dictionaries hold [None]
    under ['results']. *)
Definition E_null : Externals world :=
  {| memory_add := add;
     memory_search := fun _ _ _ w => (Ok NullResults, w);
     memory_get_all := fun _ w => (Ok NullResults, w);
     memory_delete := delete;
     get_prompt := prompt;
     requests_post := post;
     time_sleep := fun _ w => w |}.

(** What the engine holds for a user. *)
Definition stored (w : world) (user : string) : list MemoryRecord :=
  records_of user (store w).

(** A configuration with every key the generation client reads. *)
Definition cfg : Config :=
  {| memory_config :=
       {| llm := Some {| llm_config :=
            Some {| ollama_base_url := Some "http://localhost:11434";
                    model := Some "llama3";
                    max_tokens := None |} |} |};
     chat_options := None;
     processing_options := Some {| po_user_id := Some "bruce" |} |}.

Definition manager : MemoryManager := init cfg.

Definition ok_response (text : string) : Response :=
  {| status_code := 200; reason := "OK";
     url := "http://localhost:11434/api/generate";
     json_body := Json (JObject [("model", JString "llama3"); ("response", JString text)]) |}.

Definition nyc : MemoryRecord := {| mem_id := "m1"; memory := "Lives in NYC" |}.
Definition pizza : MemoryRecord := {| mem_id := "m2"; memory := "Likes pizza" |}.
Definition chess : MemoryRecord := {| mem_id := "m3"; memory := "Plays chess" |}.
Definition jazz : MemoryRecord := {| mem_id := "m4"; memory := "Enjoys jazz" |}.
Definition tea : MemoryRecord := {| mem_id := "m5"; memory := "Drinks tea" |}.

(** A working world: four memories of bruce, both templates, a live
    endpoint. *)
Definition w0 : world :=
  {| store := [("bruce", nyc); ("bruce", pizza); ("alice", tea); ("bruce", chess);
               ("bruce", jazz)];
     add_script := [];
     search_error := None;
     delete_failing := [];
     templates := [("user_interaction", "Answer from the facts."); ("error_response", "Apologise.")];
     http := Ok (ok_response " You like pizza. ") |}.

Definition start (w : world) : state world := St w [].

(** A manager whose configuration lacks [ollama_base_url]. *)
Definition manager_no_url : MemoryManager :=
  init {| memory_config :=
            {| llm := Some {| llm_config :=
                 Some {| ollama_base_url := None; model := Some "llama3";
                         max_tokens := Some 256 |} |} |};
          chat_options := None;
          processing_options := None |}.

(** A reply with status 200 whose body is not JSON. *)
Definition html_page : Response :=
  {| status_code := 200; reason := "OK";
     url := "http://localhost:11434/api/generate";
     json_body := NotJson "Expecting value: line 1 column 1 (char 0)" |}.

(** A reply with status 300 that carries a JSON body. *)
Definition multiple_choices : Response :=
  {| status_code := 300; reason := "Multiple Choices";
     url := "http://localhost:11434/api/generate";
     json_body := Json (JObject [("response", JString " Pick one. ")]) |}.

(** A reply with status 200 whose body is the JSON value [null]. *)
Definition null_body : Response :=
  {| status_code := 200; reason := "OK";
     url := "http://localhost:11434/api/generate";
     json_body := Json JNull |}.

(** A reply with status 200 whose ['response'] is a number. *)
Definition number_response : Response :=
  {| status_code := 200; reason := "OK";
     url := "http://localhost:11434/api/generate";
     json_body := Json (JObject [("response", JInt 42)]) |}.

(** A manager whose configuration holds [null] under ['chat_options']. *)
Definition manager_null_chat : MemoryManager :=
  init {| memory_config := memory_config cfg;
          chat_options := Some (ChatOther TNone);
          processing_options := Some {| po_user_id := Some "bruce" |} |}.

(** A manager whose configuration sets [max_context_memories] to 2. *)
Definition manager_two : MemoryManager :=
  init {| memory_config := memory_config cfg;
          chat_options :=
            Some (ChatMap {| temperature := None; max_context_memories := Some 2;
                             response_timeout := None |});
          processing_options := Some {| po_user_id := Some "bruce" |} |}.

(** A created record without ['memory']. *)
Definition bare : AddRecord := {| added_id := "m9"; added_memory := None |}.

End Mock.

(** ** Vocabulary of the statements *)

(** The events of [k] failed attempts, each followed by the 2 second sleep. *)
Fixpoint retry_prefix (c : call) (k : nat) : list event :=
  match k with
  | O => []
  | S k' => Ev c false :: Ev (CSleep 2) true :: retry_prefix c k'
  end.

Definition is_add (ev : event) : bool :=
  match ev_call ev with CAdd _ _ _ => true | _ => false end.

Definition is_sleep (ev : event) : bool :=
  match ev_call ev with CSleep _ => true | _ => false end.

Definition count (p : event -> bool) (evs : list event) : Z :=
  Z.of_nat (length (filter p evs)).

Section RetryVocabulary.

Context {W : Type} (E : Externals W) (self : MemoryManager).
Variables (fact : string) (metadata : option metadata_t).

(** The world after [k] attempts that all raised, sleeps included; [None] if
    one of them returned. *)
Fixpoint after_failures (user : string) (k : nat) (w : W) : option W :=
  match k with
  | O => Some w
  | S k' =>
      match memory_add E fact user metadata w with
      | (Raise _, w1) => after_failures user k' (time_sleep E 2 w1)
      | (Ok _, _) => None
      end
  end.

(** Every [memory.add] raises. *)
Definition add_always_raises : Prop :=
  forall f u m w, is_ok (fst (memory_add E f u m w)) = false.

(** The body of the retry loop, for a resolved user. *)
Definition attempt_body (user : string) (max_retries attempt : Z)
  : M W (option (option AddResult)) :=
  try_catch
    (result <- extern (CAdd fact user metadata) (memory_add E fact user metadata) ;;
     match first_added result with
     | Some record => subscript (added_memory record) "memory" ;;; ret (Some result)
     | None => ret (Some result)
     end)
    (fun e => if attempt <? max_retries - 1 then sleep E 2 ;;; ret None else ret (Some None)).

End RetryVocabulary.

(** ** Vocabulary for the context and the prompt *)

(** The sentence used when nothing is known about the user. *)
Definition no_information (user_id : string) : string :=
  "No specific information available about " ++ user_id ++ ".".

(** The context as the specification words it: the header, then for every
    fact, in order, a new line holding a bullet, a space and the fact. *)
Definition bullet_line (r : MemoryRecord) : string :=
  Py.nl ++ Py.bullet ++ " " ++ memory r.

Definition facts_block (user_id : string) (records : list MemoryRecord) : string :=
  "Facts about " ++ user_id ++ ":" ++ String.concat "" (map bullet_line records).

(** [needle in text] on strings. *)
Definition contains (text needle : string) : Prop :=
  exists before after, text = before ++ needle ++ after.

(** ** Vocabulary for the generation client *)

(** The keys [_call_ollama_api] reads with a subscript are all there. *)
Record client_configured (self : MemoryManager) (base_url model_name : string) (lc : LlmConfig)
  : Prop :=
  { cc_llm : exists sec, llm (memory_config (self_config self)) = Some sec
                         /\ llm_config sec = Some lc;
    cc_url : ollama_base_url lc = Some base_url;
    cc_model : model lc = Some model_name }.

(** The ['chat_options'] the methods can read: the empty dictionary when the
    key is missing, nothing when the value is not a dictionary. *)
Definition chat_mapping (self : MemoryManager) : option ChatOptions :=
  match chat_options (self_config self) with
  | None => Some no_chat_options
  | Some (ChatMap co) => Some co
  | Some (ChatOther _) => None
  end.

(** ['chat_options'] is missing or a dictionary. *)
Definition chat_options_usable (self : MemoryManager) : Prop :=
  exists co, chat_mapping self = Some co.

(** [max_context_memories] is given and truthy, so that the default is not
    looked up. *)
Definition limit_given (max_context_memories : option Z) : bool :=
  match max_context_memories with
  | Some n => negb (n =? 0)
  | None => false
  end.

(** The limit the configuration gives: [max_context_memories] of a usable
    ['chat_options'], 5 without it. *)
Definition configured_limit (self : MemoryManager) : Z :=
  get_or (max_context_memories (get_or (chat_mapping self) no_chat_options)) 5.

(** The request [_call_ollama_api] builds for a prompt: URL, body, timeout. *)
Definition url_of (base_url : string) : string := base_url ++ "/api/generate".

Definition payload_of (self : MemoryManager) (model_name : string) (lc : LlmConfig)
    (prompt : string) : Payload :=
  let chat_config := get_or (chat_mapping self) no_chat_options in
  {| pl_model := model_name;
     pl_prompt := prompt;
     pl_stream := false;
     pl_options :=
       {| opt_temperature := get_or (temperature chat_config) 0.7%Q;
          opt_num_predict := get_or (max_tokens lc) 2000 |} |}.

Definition timeout_of (self : MemoryManager) : Z :=
  get_or (response_timeout (get_or (chat_mapping self) no_chat_options)) 60.

Definition request_of (self : MemoryManager) (base_url model_name : string) (lc : LlmConfig)
    (prompt : string) : call :=
  CPost (url_of base_url) (payload_of self model_name lc prompt) (timeout_of self).

Definition canned_reply : string := "Sorry, I couldn't generate a response.".

Definition sorry_prefix : string := "Sorry, I encountered an error: ".

(** What the client makes of a decoded body: the lines after
    [response.json()]. *)
Definition read_response {W} (result : json) : M W string :=
  found <- has_response result ;;
  if found : bool
  then text <- response_item result ;; strip_value text
  else ret canned_reply.

(** The same as a value: these lines call nothing. *)
Definition answer (result : json) : outcome string :=
  fst (read_response result (St tt [])).

(** A reply whose body is a dictionary with a text under ['response'] that
    is empty once stripped. *)
Definition blank_text (resp : Response) : Prop :=
  exists items text,
    json_body resp = Json (JObject items)
    /\ dict_get "response" items = Some (JString text)
    /\ Py.strip text = "".

(** ** Vocabulary for reset and search *)

Definition is_deleted (ev : event) : bool :=
  match ev_call ev with CDelete _ => ev_ok ev | _ => false end.

(** The identifiers passed to [memory.delete], in order. *)
Definition delete_calls (evs : list event) : list string :=
  flat_map (fun ev => match ev_call ev with CDelete i => [i] | _ => [] end) evs.

(** The body of the deletion loop of [reset_memories]. *)
Definition delete_step {W : Type} (E : Externals W) (memory : MemoryRecord)
    (deleted_count : Z) : M W Z :=
  try_catch
    (extern (CDelete (mem_id memory)) (memory_delete E (mem_id memory)) ;;;
     ret (deleted_count + 1))
    (fun e => ret deleted_count).

Definition has_id (i : string) (r : MemoryRecord) : bool := String.eqb (mem_id r) i.

Definition id_among (ids : list string) (r : MemoryRecord) : bool :=
  existsb (String.eqb (mem_id r)) ids.

(** A reliable engine over an abstraction [stored] of what it holds per user:
    listing returns exactly that and changes nothing; deleting an identifier
    succeeds and removes the records that carry it. *)
Record Reliable {W : Type} (E : Externals W) (stored : W -> string -> list MemoryRecord)
  : Prop :=
  { reliable_get_all :
      forall u w, exists w',
        memory_get_all E u w = (Ok (Listed {| results := Some (stored w u) |}), w')
        /\ forall u', stored w' u' = stored w u';
    reliable_delete :
      forall i w, exists w',
        memory_delete E i w = (Ok tt, w')
        /\ forall u, stored w' u = filter (fun r => negb (has_id i r)) (stored w u) }.


(** The dictionary a reply is, when it is one whose ['results'] can be
    counted. *)
Definition as_dict (r : reply) : option MemResult :=
  match r with
  | Listed d => Some d
  | NullResults | NoDict => None
  end.

(** The log line of [add_fact] can name the created memory: there is no first
    record, or it has a ['memory']. *)
Definition loggable (result : option AddResult) : bool :=
  match first_added result with
  | Some record => match added_memory record with Some _ => true | None => false end
  | None => true
  end.

(** An attempt counts as failed: [memory.add] raised, or the log line could
    not name the memory of what it returned. *)
Definition attempt_failed (o : outcome (option AddResult)) : bool :=
  match o with
  | Ok result => negb (loggable result)
  | Raise _ => true
  end.

(** ** Vocabulary for the further properties *)

Definition is_failed_add (ev : event) : bool :=
  match ev_call ev with CAdd _ _ _ => negb (ev_ok ev) | _ => false end.

Definition is_failed_delete (ev : event) : bool :=
  match ev_call ev with CDelete _ => negb (ev_ok ev) | _ => false end.

Definition is_get_prompt (ev : event) : bool :=
  match ev_call ev with CGetPrompt _ _ _ => true | _ => false end.

Definition is_post (ev : event) : bool :=
  match ev_call ev with CPost _ _ _ => true | _ => false end.

(** The only events of a write: an attempt for this fact and user, or the
    2 second sleep. *)
Definition retry_event (fact user : string) (metadata : option metadata_t) (ev : event)
  : Prop :=
  ev_call ev = CAdd fact user metadata \/ ev = Ev (CSleep 2) true.

(** The first key that the subscripts of [_call_ollama_api] do not find, in
    the order the method reads them. *)
Definition first_missing_key (self : MemoryManager) : option string :=
  match llm (memory_config (self_config self)) with
  | None => Some "llm"
  | Some sec =>
      match llm_config sec with
      | None => Some "config"
      | Some lc =>
          match ollama_base_url lc with
          | None => Some "ollama_base_url"
          | Some _ =>
              match model lc with
              | None => Some "model"
              | Some _ => None
              end
          end
      end
  end.

(** What [chat] answers for an outcome of the generation client. *)
Definition chat_answer (r : outcome string) : string :=
  match r with
  | Ok text => text
  | Raise e => sorry_prefix ++ exn_str e
  end.

(** ** Running the monad *)

Section Run.

Context {W : Type}.

Lemma extern_eq {A} (c : call) (f : W -> outcome A * W) (s : state W) r w' :
  f (world s) = (r, w') ->
  extern c f s = (r, St w' (trace s ++ [Ev c (is_ok r)])).
Proof. intros H. unfold extern. rewrite H. reflexivity. Qed.

Lemma bind_ok {A B} (m : M W A) (k : A -> M W B) s a s' :
  m s = (Ok a, s') -> bind m k s = k a s'.
Proof. intros H. unfold bind. rewrite H. reflexivity. Qed.

Lemma bind_raise {A B} (m : M W A) (k : A -> M W B) s e s' :
  m s = (Raise e, s') -> bind m k s = (Raise e, s').
Proof. intros H. unfold bind. rewrite H. reflexivity. Qed.

Lemma try_catch_ok {A} (m : M W A) h s a s' :
  m s = (Ok a, s') -> try_catch m h s = (Ok a, s').
Proof. intros H. unfold try_catch. rewrite H. reflexivity. Qed.

Lemma try_catch_raise {A} (m : M W A) h s e s' :
  m s = (Raise e, s') -> try_catch m h s = h e s'.
Proof. intros H. unfold try_catch. rewrite H. reflexivity. Qed.

(** A handler that always returns makes the whole [try] return. *)
Lemma try_catch_total {A} (m : M W A) (h : exn -> M W A) s :
  (forall e s1, exists a s2, h e s1 = (Ok a, s2)) ->
  exists a s2, try_catch m h s = (Ok a, s2).
Proof.
  intros Hh. unfold try_catch. destruct (m s) as [[a | e] s1].
  - now exists a, s1.
  - apply Hh.
Qed.

Lemma state_eta (s : state W) : St (world s) (trace s ++ []) = s.
Proof. destruct s. simpl. now rewrite app_nil_r. Qed.

End Run.

(** ** Write retries *)

Section Retries.

Context {W : Type} (E : Externals W) (self : MemoryManager).
Variables (fact : string) (metadata : option metadata_t).

Lemma add_fact_unfold user_id max_retries :
  add_fact E self fact user_id metadata max_retries =
  for_return (range max_retries)
    (attempt_body E fact metadata (or_str user_id (self_user_id self)) max_retries) (ret None).
Proof. reflexivity. Qed.

(** One attempt, from what [memory.add] did. *)
Lemma attempt_body_run user max_retries attempt s o w' :
  memory_add E fact user metadata (world s) = (o, w') ->
  attempt_body E fact metadata user max_retries attempt s =
  if attempt_failed o
  then if attempt <? max_retries - 1
       then (Ok None, St (time_sleep E 2 w')
                         (trace s ++ [Ev (CAdd fact user metadata) (is_ok o);
                                      Ev (CSleep 2) true]))
       else (Ok (Some None), St w' (trace s ++ [Ev (CAdd fact user metadata) (is_ok o)]))
  else (Ok (Some match o with Ok r => r | Raise _ => None end),
        St w' (trace s ++ [Ev (CAdd fact user metadata) (is_ok o)])).
Proof.
  intros H. unfold attempt_body, try_catch.
  unfold bind at 1. rewrite (extern_eq _ _ _ H).
  assert (Hh : forall (e : exn) (s1 : state W),
             (if attempt <? max_retries - 1
              then sleep E 2 ;;; @ret W (option (option AddResult)) None
              else ret (Some None)) s1
             = if attempt <? max_retries - 1
               then (Ok None, St (time_sleep E 2 (world s1)) (trace s1 ++ [Ev (CSleep 2) true]))
               else (Ok (Some None), s1)).
  { intros _ s1. destruct (attempt <? max_retries - 1); reflexivity. }
  destruct o as [r | e]; cbn [attempt_failed is_ok].
  - unfold loggable. destruct (first_added r) as [record|]; [| reflexivity].
    destruct (added_memory record) as [text|]; cbn [subscript negb].
    + reflexivity.
    + unfold bind, raise. rewrite (Hh (Exn KeyError (Py.repr_key "memory"))).
      cbn [world trace]. destruct (attempt <? max_retries - 1); [| reflexivity].
      now rewrite <- app_assoc.
  - rewrite (Hh e). cbn [world trace].
    destruct (attempt <? max_retries - 1); [| reflexivity].
    now rewrite <- app_assoc.
Qed.

Lemma attempt_body_ok user max_retries attempt s r w' :
  memory_add E fact user metadata (world s) = (Ok r, w') ->
  loggable r = true ->
  attempt_body E fact metadata user max_retries attempt s =
  (Ok (Some r), St w' (trace s ++ [Ev (CAdd fact user metadata) true])).
Proof.
  intros H Hl. rewrite (attempt_body_run user max_retries attempt s H).
  cbn [attempt_failed is_ok]. now rewrite Hl.
Qed.

Lemma attempt_body_retry user max_retries attempt s e w' :
  memory_add E fact user metadata (world s) = (Raise e, w') ->
  attempt < max_retries - 1 ->
  attempt_body E fact metadata user max_retries attempt s =
  (Ok None, St (time_sleep E 2 w')
              (trace s ++ [Ev (CAdd fact user metadata) false; Ev (CSleep 2) true])).
Proof.
  intros H Hlt. rewrite (attempt_body_run user max_retries attempt s H).
  apply Z.ltb_lt in Hlt. now rewrite Hlt.
Qed.

Lemma attempt_body_last user max_retries attempt s e w' :
  memory_add E fact user metadata (world s) = (Raise e, w') ->
  max_retries - 1 <= attempt ->
  attempt_body E fact metadata user max_retries attempt s =
  (Ok (Some None), St w' (trace s ++ [Ev (CAdd fact user metadata) false])).
Proof.
  intros H Hge. rewrite (attempt_body_run user max_retries attempt s H).
  apply Z.ltb_ge in Hge. now rewrite Hge.
Qed.

(** The loop runs through [k] failing attempts, sleeping after each, as long
    as none of them is the last one allowed. *)
Lemma loop_through_failures user max_retries after :
  forall k i rest s wk,
    after_failures E fact metadata user k (world s) = Some wk ->
    Z.of_nat (i + k) <= max_retries - 1 ->
    for_return (map Z.of_nat (seq i (k + rest))) (attempt_body E fact metadata user max_retries) after s =
    for_return (map Z.of_nat (seq (i + k) rest)) (attempt_body E fact metadata user max_retries) after
      (St wk (trace s ++ retry_prefix (CAdd fact user metadata) k)).
Proof.
  induction k as [|k IH]; intros i rest s wk Hk Hle.
  - simpl in Hk. injection Hk as <-. simpl. rewrite Nat.add_0_r.
    now rewrite state_eta.
  - simpl in Hk.
    destruct (memory_add E fact user metadata (world s)) as [[r | e] w1] eqn:Hadd;
      [discriminate|].
    cbn [Nat.add seq map for_return].
    erewrite bind_ok by (eapply attempt_body_retry; [exact Hadd | lia]).
    rewrite (IH (S i) rest _ wk); [| exact Hk | simpl; lia].
    cbn [trace retry_prefix]. rewrite <- app_assoc. simpl.
    now replace (S (i + k))%nat with (i + S k)%nat by lia.
Qed.

Lemma always_raises_after user :
  add_always_raises E -> forall k w, exists wk, after_failures E fact metadata user k w = Some wk.
Proof.
  intros Hall. induction k as [|k IH]; intros w; simpl.
  - now exists w.
  - specialize (Hall fact user metadata w).
    destruct (memory_add E fact user metadata w) as [[r | e] w1]; [discriminate|].
    apply IH.
Qed.

Lemma count_retry_prefix_add user k :
  count is_add (retry_prefix (CAdd fact user metadata) k) = Z.of_nat k.
Proof.
  unfold count. induction k as [|k IH]; [reflexivity|].
  cbn -[Z.of_nat]. lia.
Qed.

Lemma count_retry_prefix_sleep user k :
  count is_sleep (retry_prefix (CAdd fact user metadata) k) = Z.of_nat k.
Proof.
  unfold count. induction k as [|k IH]; [reflexivity|].
  cbn -[Z.of_nat]. lia.
Qed.

Lemma count_app p l1 l2 : count p (l1 ++ l2) = count p l1 + count p l2.
Proof. unfold count. rewrite filter_app, length_app. lia. Qed.

End Retries.

Lemma range_split (n : Z) (k : nat) :
  Z.of_nat k < n ->
  range n = map Z.of_nat (seq 0 (k + S (Z.to_nat n - S k))).
Proof.
  intros H. unfold range. do 2 f_equal. lia.
Qed.

(** C2.  When every [memory.add] raises, [add_fact] with [max_retries >= 1]
    makes exactly [max_retries] calls to [memory.add], sleeps 2 seconds after
    each failed attempt but the last ([max_retries - 1] sleeps) and returns
    [None]. *)
Theorem add_fact_all_attempts_fail {W : Type} (E : Externals W) (self : MemoryManager)
    (fact : string) (user_id : option string) (metadata : option metadata_t)
    (max_retries : Z) (s : state W) :
  add_always_raises E ->
  0 < max_retries ->
  let c := CAdd fact (or_str user_id (self_user_id self)) metadata in
  let evs := (retry_prefix c (Z.to_nat (max_retries - 1)) ++ [Ev c false])%list in
  (exists w', add_fact E self fact user_id metadata max_retries s
              = (Ok None, St w' (trace s ++ evs)))
  /\ count is_add evs = max_retries
  /\ count is_sleep evs = max_retries - 1.
Proof.
  intros Hall Hpos c evs. subst c evs.
  set (user := or_str user_id (self_user_id self)).
  set (k := Z.to_nat (max_retries - 1)).
  split; [| split].
  - destruct (always_raises_after fact metadata user Hall k (world s))
      as [wk Hk].
    rewrite add_fact_unfold. fold user.
    rewrite (@range_split max_retries k) by lia.
    replace (Z.to_nat max_retries - S k)%nat with 0%nat by lia.
    erewrite loop_through_failures; [| exact Hk | lia].
    cbn [Nat.add seq map for_return].
    pose proof (Hall fact user metadata wk) as Hlast.
    destruct (memory_add E fact user metadata wk) as [[r | e] w'] eqn:Hadd; [discriminate|].
    exists w'.
    erewrite bind_ok by (eapply attempt_body_last; [exact Hadd | simpl; lia]).
    cbn [trace]. now rewrite <- app_assoc.
  - rewrite count_app, count_retry_prefix_add. unfold count. cbn. lia.
  - rewrite count_app, count_retry_prefix_sleep. unfold count. cbn. lia.
Qed.

(** X15.  When the first [k] attempts raise and the next one, still within
    [max_retries], returns a result [r] whose log line can be written ([r] is
    [None], has no ['results'], [None] or an empty list under it, or a first
    record with a ['memory']), [add_fact] returns [r] at once: the trace ends
    with that call, and [memory.add] was called [k + 1] times. *)
Theorem add_fact_first_success {W : Type} (E : Externals W) (self : MemoryManager)
    (fact : string) (user_id : option string) (metadata : option metadata_t)
    (max_retries : Z) (s : state W) (k : nat) (r : option AddResult) (wk w' : W) :
  let user := or_str user_id (self_user_id self) in
  let c := CAdd fact user metadata in
  after_failures E fact metadata user k (world s) = Some wk ->
  memory_add E fact user metadata wk = (Ok r, w') ->
  loggable r = true ->
  Z.of_nat k < max_retries ->
  add_fact E self fact user_id metadata max_retries s
  = (Ok r, St w' (trace s ++ retry_prefix c k ++ [Ev c true]))
  /\ count is_add (retry_prefix c k ++ [Ev c true])%list = Z.of_nat k + 1.
Proof.
  intros user c Hk Hadd Hlog Hlt. split.
  - rewrite add_fact_unfold. fold user.
    rewrite (@range_split max_retries k) by lia.
    erewrite loop_through_failures; [| exact Hk | lia].
    cbn [Nat.add seq map for_return].
    erewrite bind_ok by (eapply attempt_body_ok; [exact Hadd | exact Hlog]).
    cbn [trace]. now rewrite <- app_assoc.
  - subst c. rewrite count_app, count_retry_prefix_add. unfold count. cbn. lia.
Qed.

Lemma add_fact_all_attempts_fail_witness :
  add_always_raises Mock.E_down
  /\ 0 < 3
  /\ (exists w',
         add_fact Mock.E_down Mock.manager "Likes tea" None None 3 (Mock.start Mock.w0)
         = (Ok None,
            St w' [Ev (CAdd "Likes tea" "bruce" None) false; Ev (CSleep 2) true;
                   Ev (CAdd "Likes tea" "bruce" None) false; Ev (CSleep 2) true;
                   Ev (CAdd "Likes tea" "bruce" None) false])).
Proof.
  assert (Hall : add_always_raises Mock.E_down) by (intros f u m w; reflexivity).
  assert (Hpos : 0 < 3) by reflexivity.
  split; [exact Hall | split; [exact Hpos |]].
  exact (proj1 (add_fact_all_attempts_fail Mock.manager "Likes tea" None None
                  (Mock.start Mock.w0) Hall Hpos)).
Defined.

(** X2.  With [max_retries <= 0] the loop body never runs: [add_fact] makes
    no call at all, leaves the state as it is and returns [None]. *)
Lemma add_fact_no_attempt {W : Type} (E : Externals W) (self : MemoryManager)
    fact user_id metadata max_retries (s : state W) :
  max_retries <= 0 ->
  add_fact E self fact user_id metadata max_retries s = (Ok None, s).
Proof.
  intros H. rewrite add_fact_unfold. unfold range.
  replace (Z.to_nat max_retries) with 0%nat by lia. reflexivity.
Qed.

Lemma add_fact_first_success_witness :
  let w := Mock.set_script Mock.w0
             [Raise (Exn Timeout "timed out"); Ok (Some {| add_results := Value [] |});
              Ok (Some {| add_results := Missing |})] in
  add_fact Mock.E Mock.manager "Drinks tea" (Some "") None 3 (Mock.start w)
  = (Ok (Some {| add_results := Value [] |}),
     St (Mock.set_script Mock.w0 [Ok (Some {| add_results := Missing |})])
        [Ev (CAdd "Drinks tea" "bruce" None) false; Ev (CSleep 2) true;
         Ev (CAdd "Drinks tea" "bruce" None) true]).
Proof.
  intros w.
  refine (proj1 (@add_fact_first_success _ Mock.E Mock.manager "Drinks tea" (Some "") None 3
                   (Mock.start w) 1%nat (Some {| add_results := Value [] |})
                   (Mock.set_script Mock.w0
                      [Ok (Some {| add_results := Value [] |});
                       Ok (Some {| add_results := Missing |})])
                   _ _ _ _ _)).
  - reflexivity.
  - vm_compute. reflexivity.
  - reflexivity.
  - reflexivity.
Defined.

(** C3.  The failing input: every [memory.add] returns a dictionary whose
    first record has no ['memory'].  The log line raises [KeyError] inside the
    [try], so each returned result is handled as a failed attempt: with
    [max_retries = 3] there are three calls that return, two sleeps, and the
    result is [None]. *)
Theorem add_fact_retries_returned_result :
  let returned := Ok (Some {| add_results := Value [Mock.bare] |}) in
  add_fact Mock.E Mock.manager "Likes tea" None None 3
    (Mock.start (Mock.set_script Mock.w0 [returned; returned; returned]))
  = (Ok None,
     St (Mock.set_store Mock.w0
           (Mock.store Mock.w0
            ++ [("bruce", {| mem_id := "m9"; memory := "Likes tea" |});
                ("bruce", {| mem_id := "m9"; memory := "Likes tea" |});
                ("bruce", {| mem_id := "m9"; memory := "Likes tea" |})]))
        [Ev (CAdd "Likes tea" "bruce" None) true; Ev (CSleep 2) true;
         Ev (CAdd "Likes tea" "bruce" None) true; Ev (CSleep 2) true;
         Ev (CAdd "Likes tea" "bruce" None) true]).
Proof. vm_compute. reflexivity. Qed.

(** ** Context formatting *)

Lemma append_assoc (a b c : string) : (a ++ b) ++ c = a ++ (b ++ c).
Proof. induction a as [|x a IH]; simpl; [reflexivity | now rewrite IH]. Qed.

Lemma append_nil_r (a : string) : a ++ "" = a.
Proof. induction a as [|x a IH]; simpl; [reflexivity | now rewrite IH]. Qed.

(** Joining with line feeds after a line feed puts one before every part. *)
Lemma nl_join_lines (f : MemoryRecord -> string) (r : MemoryRecord) (rs : list MemoryRecord) :
  Py.nl ++ Py.join Py.nl (map f (r :: rs))
  = String.concat "" (map (fun x => Py.nl ++ f x) (r :: rs)).
Proof.
  revert r. induction rs as [|r' rs IH]; intros r.
  - reflexivity.
  - change (Py.join Py.nl (map f (r :: r' :: rs)))
      with (f r ++ Py.nl ++ Py.join Py.nl (map f (r' :: rs))).
    rewrite IH.
    change (map (fun x => Py.nl ++ f x) (r :: r' :: rs))
      with ((Py.nl ++ f r) :: map (fun x => Py.nl ++ f x) (r' :: rs)).
    change (String.concat "" ((Py.nl ++ f r) :: map (fun x => Py.nl ++ f x) (r' :: rs)))
      with ((Py.nl ++ f r) ++ ""
            ++ String.concat "" (map (fun x => Py.nl ++ f x) (r' :: rs))).
    now rewrite append_assoc.
Qed.

(** C4.  The context is the no-information sentence when the search result
    is [None], has no ['results'] or an empty list; otherwise it is the header
    followed by one bullet line per fact, in the order of the list.  The
    example of the specification is the last conjunct. *)
Theorem format_context_spec (user_id : string) :
  format_context user_id None = no_information user_id
  /\ format_context user_id (Some {| results := Some [] |}) = no_information user_id
  /\ format_context user_id (Some {| results := None |}) = no_information user_id
  /\ (forall r rs,
        format_context user_id (Some {| results := Some (r :: rs) |})
        = facts_block user_id (r :: rs))
  /\ format_context "bruce"
       (Some {| results := Some [ {| mem_id := "a"; memory := "Lives in NYC" |};
                                  {| mem_id := "b"; memory := "Likes pizza" |} ] |})
     = "Facts about bruce:" ++ Py.nl ++ Py.bullet ++ " Lives in NYC"
       ++ Py.nl ++ Py.bullet ++ " Likes pizza".
Proof.
  repeat split; try reflexivity.
  intros r rs. unfold format_context, facts_block.
  cbn [truthy_results has_results results negb get_or].
  rewrite map_map.
  rewrite !append_assoc. do 3 f_equal.
  apply (nl_join_lines (fun x => Py.bullet ++ " " ++ memory x)).
Qed.

(** ** Prompt resolution *)

(** C5.  [resolve_prompt] always returns a string.  When the
    ['user_interaction'] template raises, the ['error_response'] template is
    asked next, with the query and the text of the first error; when that one
    raises too, the result is the fixed apology followed by the query. *)
Theorem resolve_prompt_never_raises {W : Type} (E : Externals W)
    (user_id context query : string) (s : state W) :
  let primary := [("user_id", user_id); ("context", context); ("query", query)] in
  (exists prompt s', resolve_prompt E user_id context query s = (Ok prompt, s'))
  /\ (forall e1 w1,
        get_prompt E "chat" "user_interaction" primary (world s) = (Raise e1, w1) ->
        let fallback := [("query", query); ("error_message", exn_str e1)] in
        let tr1 := (trace s ++ [Ev (CGetPrompt "chat" "user_interaction" primary) false])%list in
        (forall p w2,
           get_prompt E "chat" "error_response" fallback w1 = (Ok p, w2) ->
           resolve_prompt E user_id context query s
           = (Ok p, St w2 (tr1 ++ [Ev (CGetPrompt "chat" "error_response" fallback) true])%list))
        /\ (forall e2 w2,
              get_prompt E "chat" "error_response" fallback w1 = (Raise e2, w2) ->
              exists prompt,
                resolve_prompt E user_id context query s
                = (Ok prompt,
                   St w2 (tr1 ++ [Ev (CGetPrompt "chat" "error_response" fallback) false])%list)
                /\ prompt = "I apologize, but I'm having trouble processing your request: "
                            ++ query
                /\ contains prompt query)).
Proof.
  intros primary. split.
  - unfold resolve_prompt. apply try_catch_total. intros e s1.
    apply try_catch_total. intros e' s2. now eexists _, _.
  - intros e1 w1 H1 fallback tr1. unfold resolve_prompt.
    erewrite try_catch_raise by (apply extern_eq; exact H1).
    split.
    + intros p w2 H2.
      erewrite try_catch_ok; [reflexivity|].
      apply extern_eq. exact H2.
    + intros e2 w2 H2. eexists. split; [| split; [reflexivity|]].
      * erewrite try_catch_raise by (apply extern_eq; exact H2). reflexivity.
      * exists "I apologize, but I'm having trouble processing your request: ", "".
        now rewrite append_nil_r.
Qed.

Lemma resolve_prompt_never_raises_witness :
  let w := Mock.set_templates Mock.w0 [] in
  resolve_prompt Mock.E "bruce" (no_information "bruce") "What do I like?" (Mock.start w)
  = (Ok "I apologize, but I'm having trouble processing your request: What do I like?",
     St w [Ev (CGetPrompt "chat" "user_interaction"
                 [("user_id", "bruce"); ("context", no_information "bruce");
                  ("query", "What do I like?")]) false;
           Ev (CGetPrompt "chat" "error_response"
                 [("query", "What do I like?"); ("error_message", "'user_interaction'")])
              false]).
Proof.
  intros w.
  destruct (resolve_prompt_never_raises Mock.E "bruce" (no_information "bruce")
              "What do I like?" (Mock.start w)) as [_ H].
  destruct (H (Exn KeyError "'user_interaction'") w eq_refl) as [_ H2].
  destruct (H2 (Exn KeyError "'error_response'") w eq_refl) as (p & Hrun & Hp & _).
  rewrite Hrun, Hp. reflexivity.
Defined.

(** ** The chat turn *)

(** The limit [chat] works with, when it gets one. *)
Lemma limit_resolved {W : Type} (self : MemoryManager) (max_context_memories : option Z)
    (s : state W) :
  limit_given max_context_memories = true \/ chat_options_usable self ->
  or_else max_context_memories (default_max_context_memories self) s
  = (Ok (or_int max_context_memories (configured_limit self)), s).
Proof.
  intros H.
  assert (Hd : chat_options_usable self ->
               default_max_context_memories self s = (Ok (configured_limit self), s)).
  { intros [co Hco]. unfold default_max_context_memories, configured_limit, section_get.
    unfold chat_mapping in *.
    destruct (chat_options (self_config self)) as [[co' | t]|]; [| discriminate |];
      reflexivity. }
  unfold or_else, or_int.
  destruct max_context_memories as [n|]; cbn [limit_given] in H.
  - destruct (n =? 0); [| reflexivity].
    destruct H as [H | H]; [discriminate | now apply Hd].
  - destruct H as [H | H]; [discriminate | now apply Hd].
Qed.

(** The limit [chat] fails on: the lookup of the default on a section that is
    not a dictionary. *)
Lemma limit_unresolved {W : Type} (self : MemoryManager) (max_context_memories : option Z)
    (t : other_type) (s : state W) :
  chat_options (self_config self) = Some (ChatOther t) ->
  limit_given max_context_memories = false ->
  or_else max_context_memories (default_max_context_memories self) s
  = (Raise (Exn AttributeError ("'" ++ other_name t ++ "' object has no attribute 'get'")), s).
Proof.
  intros Hc Hg. unfold or_else, default_max_context_memories, section_get. rewrite Hc.
  destruct max_context_memories as [n|]; [| reflexivity].
  cbn [limit_given] in Hg. now destruct (n =? 0).
Qed.

(** [chat] once its limit is resolved. *)
Lemma chat_resolved {W : Type} (E : Externals W) (self : MemoryManager)
    query user_id max_context_memories (s : state W) :
  limit_given max_context_memories = true \/ chat_options_usable self ->
  chat E self query user_id max_context_memories s
  = try_catch
      (chat_body E self query (or_str user_id (self_user_id self))
         (or_int max_context_memories (configured_limit self)))
      (fun e => ret (sorry_prefix ++ exn_str e)) s.
Proof.
  intros H. unfold chat.
  now rewrite (bind_ok _ _ _ (@limit_resolved _ self max_context_memories s H)).
Qed.

(** C1.  The failing input: the configuration holds [null] under
    ['chat_options'] and [chat] is called without [max_context_memories].  The
    default is looked up before the [try], and [chat] raises
    [AttributeError] without having called anything. *)
Theorem chat_raises_on_null_chat_options :
  chat Mock.E Mock.manager_null_chat "What do I like?" None None (Mock.start Mock.w0)
  = (Raise (Exn AttributeError "'NoneType' object has no attribute 'get'"),
     Mock.start Mock.w0).
Proof. reflexivity. Qed.

(** X16.  Once the limit is resolved (a truthy [max_context_memories] is
    given, or ['chat_options'] is missing or a dictionary), [chat] returns a
    string: an exception that leaves the body of its [try] (search, format,
    prompt, generation) is turned into the sentence "Sorry, I encountered an
    error: " followed by its text; so is, in particular, one raised by the
    generation client. *)
Theorem chat_catches_everything {W : Type} (E : Externals W) (self : MemoryManager)
    (query : string) (user_id : option string) (max_context_memories : option Z)
    (s : state W) :
  limit_given max_context_memories = true \/ chat_options_usable self ->
  let uid := or_str user_id (self_user_id self) in
  let limit := or_int max_context_memories (configured_limit self) in
  (exists text s', chat E self query user_id max_context_memories s = (Ok text, s'))
  /\ (forall e s',
        chat_body E self query uid limit s = (Raise e, s') ->
        chat E self query user_id max_context_memories s
        = (Ok (sorry_prefix ++ exn_str e), s'))
  /\ (forall memories s1 prompt s2 e s3,
        search_memories E self query (Some uid) limit s = (Ok memories, s1) ->
        resolve_prompt E uid (format_context uid memories) query s1 = (Ok prompt, s2) ->
        _call_ollama_api E self prompt s2 = (Raise e, s3) ->
        chat E self query user_id max_context_memories s
        = (Ok (sorry_prefix ++ exn_str e), s3)).
Proof.
  intros Hl uid limit.
  rewrite (@chat_resolved _ E self query user_id max_context_memories s Hl). fold uid limit.
  split; [| split].
  - apply try_catch_total. intros e s1. now eexists _, _.
  - intros e s' Hbody. now rewrite (try_catch_raise _ _ _ Hbody).
  - intros memories s1 prompt s2 e s3 Hs Hp Hg.
    erewrite try_catch_raise; [reflexivity|].
    unfold chat_body.
    rewrite (bind_ok _ _ _ Hs). rewrite (bind_ok _ _ _ Hp). exact Hg.
Qed.

Lemma chat_catches_everything_witness :
  let w := Mock.set_http Mock.w0 (Raise (Exn ConnectionError "Connection refused")) in
  exists s',
    chat Mock.E Mock.manager "What do I like?" None None (Mock.start w)
    = (Ok "Sorry, I encountered an error: Connection refused", s').
Proof.
  intros w. eexists.
  assert (Hl : limit_given None = true \/ chat_options_usable Mock.manager).
  { right. now exists no_chat_options. }
  refine (proj1 (proj2 (@chat_catches_everything _ Mock.E Mock.manager "What do I like?"
                          None None (Mock.start w) Hl))
                (Exn ConnectionError "Connection refused") _ _).
  vm_compute. reflexivity.
Defined.

(** X17.  When ['chat_options'] is in the configuration but is not a
    dictionary, and [max_context_memories] is not given or is 0, [chat]
    raises [AttributeError] before its [try], without calling anything. *)
Theorem chat_raises_before_try {W : Type} (E : Externals W) (self : MemoryManager)
    (query : string) (user_id : option string) (max_context_memories : option Z)
    (t : other_type) (s : state W) :
  chat_options (self_config self) = Some (ChatOther t) ->
  limit_given max_context_memories = false ->
  chat E self query user_id max_context_memories s
  = (Raise (Exn AttributeError ("'" ++ other_name t ++ "' object has no attribute 'get'")), s).
Proof.
  intros Hc Hg. unfold chat.
  now rewrite (bind_raise _ _ _ (@limit_unresolved _ self max_context_memories t s Hc Hg)).
Qed.

Lemma chat_raises_before_try_witness :
  chat Mock.E Mock.manager_null_chat "What do I like?" (Some "alice") (Some 0)
    (Mock.start Mock.w0)
  = (Raise (Exn AttributeError "'NoneType' object has no attribute 'get'"),
     Mock.start Mock.w0).
Proof.
  exact (@chat_raises_before_try _ Mock.E Mock.manager_null_chat "What do I like?"
           (Some "alice") (Some 0) TNone (Mock.start Mock.w0) eq_refl eq_refl).
Defined.

(** ** The generation client *)

Lemma try_catch_if_reraise {W A : Type} (C : exn -> bool) (m : M W A) (s : state W) :
  try_catch_if C m (fun e => raise e) s = m s.
Proof.
  unfold try_catch_if, try_catch, raise.
  destruct (m s) as [[a | e] s']; [reflexivity | now destruct (C e)].
Qed.

(** Reading the decoded body calls nothing. *)
Lemma read_response_pure {W : Type} (result : json) (s : state W) :
  read_response result s = (answer result, s).
Proof.
  unfold answer, read_response, bind, has_response, response_item, strip_value,
    subscript, raise, ret.
  destruct result as [| b | n | q | str | items | items]; cbn [fst]; try reflexivity.
  - destruct (Py.str_in "response" str); reflexivity.
  - destruct (existsb _ items); reflexivity.
  - destruct (dict_get "response" items) as [[| b | n | q | str | l | l]|];
      reflexivity.
Qed.

Lemma answer_text (items : list (string * json)) (text : string) :
  dict_get "response" items = Some (JString text) ->
  answer (JObject items) = Ok (Py.strip text).
Proof. intros H. unfold answer. cbn. now rewrite H. Qed.

Lemma answer_canned (items : list (string * json)) :
  dict_get "response" items = None ->
  answer (JObject items) = Ok canned_reply.
Proof. intros H. unfold answer. cbn. now rewrite H. Qed.

(** The client only answers with the canned sentence or with the stripped
    text of a dictionary. *)
Lemma answer_ok (result : json) (text : string) :
  answer result = Ok text ->
  text = canned_reply
  \/ exists items txt,
       result = JObject items
       /\ dict_get "response" items = Some (JString txt)
       /\ text = Py.strip txt.
Proof.
  unfold answer, read_response, bind, has_response, response_item, strip_value,
    subscript, raise, ret.
  destruct result as [| b | n | q | str | items | items]; cbn [fst]; try discriminate.
  - destruct (Py.str_in "response" str); [discriminate | intros [= <-]; now left].
  - destruct (existsb _ items); [discriminate | intros [= <-]; now left].
  - destruct (dict_get "response" items) as [[| b | n | q | str | l | l]|] eqn:Hget;
      try discriminate.
    + intros [= <-]. right. now exists items, str.
    + intros [= <-]. now left.
Qed.

(** Reading an option of a usable section. *)
Lemma section_get_usable {W A : Type} (self : MemoryManager) (field : ChatOptions -> option A)
    (default : A) (s : state W) :
  field no_chat_options = None ->
  chat_options_usable self ->
  section_get (chat_options (self_config self)) field default s
  = (Ok (get_or (field (get_or (chat_mapping self) no_chat_options)) default), s).
Proof.
  intros Hf [co Hco]. unfold section_get, chat_mapping in *.
  destruct (chat_options (self_config self)) as [[co' | t]|]; [| discriminate |].
  - reflexivity.
  - cbn [get_or]. now rewrite Hf.
Qed.

(** With the keys in place and a usable section, the client is the guarded
    request alone. *)
Lemma call_ollama_api_configured {W : Type} (E : Externals W) (self : MemoryManager)
    base_url model_name lc prompt (s : state W) :
  client_configured self base_url model_name lc ->
  chat_options_usable self ->
  _call_ollama_api E self prompt s =
  (response <- extern (request_of self base_url model_name lc prompt)
                      (requests_post E (url_of base_url)
                         (payload_of self model_name lc prompt) (timeout_of self)) ;;
   raise_for_status response ;;;
   result <- response_json response ;;
   read_response result) s.
Proof.
  intros [(sec & Hllm & Hcfg) Hurl Hmodel] Hu.
  unfold _call_ollama_api. rewrite Hllm. cbn [subscript].
  rewrite (bind_ok _ _ _ (a := sec) (s' := s) eq_refl).
  rewrite Hcfg. cbn [subscript].
  rewrite (bind_ok _ _ _ (a := lc) (s' := s) eq_refl).
  rewrite Hurl. cbn [subscript].
  rewrite (bind_ok _ _ _ (a := base_url) (s' := s) eq_refl).
  rewrite Hmodel. cbn [subscript].
  rewrite (bind_ok _ _ _ (a := model_name) (s' := s) eq_refl).
  rewrite (bind_ok _ _ _ (@section_get_usable W Q self temperature 0.7%Q s eq_refl Hu)).
  rewrite (bind_ok _ _ _ (@section_get_usable W Z self response_timeout 60 s eq_refl Hu)).
  now rewrite try_catch_if_reraise.
Qed.

(** With the keys in place and a section that is not a dictionary, the
    client stops at the first option it reads. *)
Lemma call_ollama_api_unusable {W : Type} (E : Externals W) (self : MemoryManager)
    base_url model_name lc prompt (s : state W) t :
  client_configured self base_url model_name lc ->
  chat_options (self_config self) = Some (ChatOther t) ->
  _call_ollama_api E self prompt s
  = (Raise (Exn AttributeError ("'" ++ other_name t ++ "' object has no attribute 'get'")), s).
Proof.
  intros [(sec & Hllm & Hcfg) Hurl Hmodel] Ht.
  unfold _call_ollama_api. rewrite Hllm. cbn [subscript].
  rewrite (bind_ok _ _ _ (a := sec) (s' := s) eq_refl).
  rewrite Hcfg. cbn [subscript].
  rewrite (bind_ok _ _ _ (a := lc) (s' := s) eq_refl).
  rewrite Hurl. cbn [subscript].
  rewrite (bind_ok _ _ _ (a := base_url) (s' := s) eq_refl).
  rewrite Hmodel. cbn [subscript].
  rewrite (bind_ok _ _ _ (a := model_name) (s' := s) eq_refl).
  rewrite Ht. reflexivity.
Qed.

Lemma raise_for_status_ok {W : Type} (response : Response) (s : state W) :
  status_code response < 400 \/ 600 <= status_code response ->
  raise_for_status response s = (Ok tt, s).
Proof.
  intros H. unfold raise_for_status.
  replace ((400 <=? status_code response) && (status_code response <? 500)) with false
    by (symmetry; apply andb_false_iff; lia).
  replace ((500 <=? status_code response) && (status_code response <? 600)) with false
    by (symmetry; apply andb_false_iff; lia).
  reflexivity.
Qed.

Lemma raise_for_status_error {W : Type} (response : Response) (s : state W) :
  400 <= status_code response < 600 ->
  exists e, raise_for_status response s = (Raise e, s) /\ exn_cls e = HTTPError.
Proof.
  intros H. unfold raise_for_status.
  destruct ((400 <=? status_code response) && (status_code response <? 500)) eqn:H4.
  - now eexists.
  - replace ((500 <=? status_code response) && (status_code response <? 600)) with true.
    + now eexists.
    + symmetry. apply andb_false_iff in H4. apply andb_true_iff. lia.
Qed.

Lemma raise_for_status_state {W : Type} (response : Response) (s s1 : state W) r :
  raise_for_status response s = (r, s1) -> s1 = s.
Proof.
  unfold raise_for_status.
  destruct ((400 <=? status_code response) && (status_code response <? 500));
    [| destruct ((500 <=? status_code response) && (status_code response <? 600))];
    now intros [= _ <-].
Qed.

(** The client on a reply whose status [raise_for_status] lets through and
    whose body is JSON. *)
Lemma call_ollama_api_reply {W : Type} (E : Externals W) (self : MemoryManager)
    base_url model_name lc prompt (s : state W) resp w' v :
  client_configured self base_url model_name lc ->
  chat_options_usable self ->
  requests_post E (url_of base_url) (payload_of self model_name lc prompt) (timeout_of self)
    (world s) = (Ok resp, w') ->
  status_code resp < 400 \/ 600 <= status_code resp ->
  json_body resp = Json v ->
  _call_ollama_api E self prompt s
  = (answer v,
     St w' (trace s ++ [Ev (request_of self base_url model_name lc prompt) true])).
Proof.
  intros Hc Hu Hpost Hst Hd.
  rewrite (@call_ollama_api_configured _ E self base_url model_name lc prompt s Hc Hu).
  erewrite bind_ok by (apply extern_eq; exact Hpost).
  erewrite bind_ok by (apply raise_for_status_ok; exact Hst).
  unfold response_json. rewrite Hd.
  erewrite bind_ok by reflexivity.
  apply read_response_pure.
Qed.

(** C6, as the code has it.  With the configuration keys in place and
    ['chat_options'] missing or a dictionary: a reply whose status
    [raise_for_status] lets through (any status outside 400 to 599, so every
    2xx) and whose JSON body is a dictionary with a string under ['response']
    gives that text stripped; such a reply whose JSON body is a dictionary
    without ['response'] gives the canned sentence; a reply with a status from
    400 to 599 raises [HTTPError]; a failure of the transport is raised
    unchanged. *)
Theorem call_ollama_api_contract {W : Type} (E : Externals W) (self : MemoryManager)
    (base_url model_name : string) (lc : LlmConfig) (prompt : string) (s : state W) :
  client_configured self base_url model_name lc ->
  chat_options_usable self ->
  let post := requests_post E (url_of base_url) (payload_of self model_name lc prompt)
                (timeout_of self) (world s) in
  let c := request_of self base_url model_name lc prompt in
  (forall resp w' items text,
      post = (Ok resp, w') -> status_code resp < 400 \/ 600 <= status_code resp ->
      json_body resp = Json (JObject items) ->
      dict_get "response" items = Some (JString text) ->
      _call_ollama_api E self prompt s
      = (Ok (Py.strip text), St w' (trace s ++ [Ev c true])))
  /\ (forall resp w' items,
        post = (Ok resp, w') -> status_code resp < 400 \/ 600 <= status_code resp ->
        json_body resp = Json (JObject items) ->
        dict_get "response" items = None ->
        _call_ollama_api E self prompt s
        = (Ok canned_reply, St w' (trace s ++ [Ev c true])))
  /\ (forall resp w',
        post = (Ok resp, w') -> 400 <= status_code resp < 600 ->
        exists e,
          _call_ollama_api E self prompt s = (Raise e, St w' (trace s ++ [Ev c true]))
          /\ exn_cls e = HTTPError)
  /\ (forall e w',
        post = (Raise e, w') ->
        _call_ollama_api E self prompt s = (Raise e, St w' (trace s ++ [Ev c false]))).
Proof.
  intros Hc Hu post c. subst post c. repeat split.
  - intros resp w' items text Hpost Hst Hd Hget.
    erewrite call_ollama_api_reply; [| exact Hc | exact Hu | exact Hpost | exact Hst | exact Hd].
    now rewrite (answer_text items Hget).
  - intros resp w' items Hpost Hst Hd Hget.
    erewrite call_ollama_api_reply; [| exact Hc | exact Hu | exact Hpost | exact Hst | exact Hd].
    now rewrite (answer_canned items Hget).
  - intros resp w' Hpost Hst.
    destruct (raise_for_status_error resp
                (St w' (trace s ++ [Ev (request_of self base_url model_name lc prompt) true]))
                Hst) as (e & Hr & He).
    exists e. split; [| exact He].
    rewrite (@call_ollama_api_configured _ E self base_url model_name lc prompt s Hc Hu).
    erewrite bind_ok by (apply extern_eq; exact Hpost).
    now erewrite bind_raise by exact Hr.
  - intros e w' Hpost.
    rewrite (@call_ollama_api_configured _ E self base_url model_name lc prompt s Hc Hu).
    now erewrite bind_raise by (apply extern_eq; exact Hpost).
Qed.

Lemma mock_client_configured :
  client_configured Mock.manager "http://localhost:11434" "llama3"
    {| ollama_base_url := Some "http://localhost:11434"; model := Some "llama3";
       max_tokens := None |}.
Proof.
  split; [| reflexivity | reflexivity].
  eexists. split; reflexivity.
Defined.

Lemma mock_usable : chat_options_usable Mock.manager.
Proof. now exists no_chat_options. Defined.

Lemma call_ollama_api_contract_witness :
  exists s',
    _call_ollama_api Mock.E Mock.manager "What do I like?" (Mock.start Mock.w0)
    = (Ok "You like pizza.", s').
Proof.
  eexists.
  refine (proj1 (@call_ollama_api_contract _ Mock.E Mock.manager _ _ _ "What do I like?"
                   (Mock.start Mock.w0) mock_client_configured mock_usable)
                (Mock.ok_response " You like pizza. ") Mock.w0 _ " You like pizza. "
                eq_refl _ eq_refl eq_refl).
  left. reflexivity.
Defined.

(** Three replies on which the claim as written fails: status 300, which is
    not 2xx, with a JSON body is answered instead of raising; a 2xx reply
    whose body is [null] has no ['response'] but raises [TypeError] instead of
    giving the canned sentence; a 2xx reply with a number under ['response']
    raises [AttributeError] instead of giving the value stripped. *)
Lemma call_ollama_api_off_contract :
  (~ (200 <= status_code Mock.multiple_choices < 300)
   /\ fst (_call_ollama_api Mock.E Mock.manager "Hello"
             (Mock.start (Mock.set_http Mock.w0 (Ok Mock.multiple_choices))))
      = Ok "Pick one.")
  /\ (200 <= status_code Mock.null_body < 300
      /\ json_body Mock.null_body = Json JNull
      /\ fst (_call_ollama_api Mock.E Mock.manager "Hello"
                (Mock.start (Mock.set_http Mock.w0 (Ok Mock.null_body))))
         = Raise (Exn TypeError "argument of type 'NoneType' is not iterable"))
  /\ (200 <= status_code Mock.number_response < 300
      /\ json_body Mock.number_response = Json (JObject [("response", JInt 42)])
      /\ fst (_call_ollama_api Mock.E Mock.manager "Hello"
                (Mock.start (Mock.set_http Mock.w0 (Ok Mock.number_response))))
         = Raise (Exn AttributeError "'int' object has no attribute 'strip'")).
Proof.
  repeat split; try (cbn; lia); vm_compute; reflexivity.
Qed.

(** ** Steps of a chat turn *)

Lemma or_str_idem (a : option string) (d : string) :
  or_str (Some (or_str a d)) d = or_str a d.
Proof.
  destruct a as [x|]; simpl.
  - destruct (Py.truthy_str x) eqn:Hx; [now rewrite Hx | now destruct (Py.truthy_str d)].
  - now destruct (Py.truthy_str d).
Qed.

(** [search_memories] from what the engine did: the dictionary when the call
    returned one that the debug line can count, [None] otherwise. *)
Lemma search_memories_run {W : Type} (E : Externals W) (self : MemoryManager)
    query user_id limit (s : state W) r w1 :
  memory_search E query (or_str user_id (self_user_id self)) limit (world s) = (r, w1) ->
  search_memories E self query user_id limit s
  = (Ok match r with Ok d => as_dict d | Raise _ => None end,
     St w1 (trace s
            ++ [Ev (CSearch query (or_str user_id (self_user_id self)) limit) (is_ok r)])).
Proof.
  intros H. unfold search_memories, try_catch, bind, extern. rewrite H.
  destruct r as [[d | |] | e]; reflexivity.
Qed.

Lemma get_all_memories_run {W : Type} (E : Externals W) (self : MemoryManager)
    user_id (s : state W) r w1 :
  memory_get_all E (or_str user_id (self_user_id self)) (world s) = (r, w1) ->
  get_all_memories E self user_id s
  = (Ok match r with Ok d => as_dict d | Raise _ => None end,
     St w1 (trace s ++ [Ev (CGetAll (or_str user_id (self_user_id self))) (is_ok r)])).
Proof.
  intros H. unfold get_all_memories, try_catch, bind, extern. rewrite H.
  destruct r as [[d | |] | e]; reflexivity.
Qed.

(** The search that [chat] makes. *)
Lemma chat_search_run {W : Type} (E : Externals W) (self : MemoryManager)
    query user_id limit (s : state W) o w1 :
  let uid := or_str user_id (self_user_id self) in
  memory_search E query uid limit (world s) = (o, w1) ->
  search_memories E self query (Some uid) limit s
  = (Ok match o with Ok d => as_dict d | Raise _ => None end,
     St w1 (trace s ++ [Ev (CSearch query uid limit) (is_ok o)])).
Proof.
  intros uid Hs.
  pose proof (@search_memories_run _ E self query (Some uid) limit s o w1) as Hsm.
  unfold uid in Hsm. rewrite or_str_idem in Hsm. exact (Hsm Hs).
Qed.

(** [resolve_prompt] asks the template service once, or twice when the first
    request failed, and does nothing else. *)
Lemma resolve_prompt_calls {W : Type} (E : Externals W) user_id context query (s : state W) :
  exists prompt s' ok rest,
    resolve_prompt E user_id context query s = (Ok prompt, s')
    /\ trace s' = (trace s
                   ++ Ev (CGetPrompt "chat" "user_interaction"
                            [("user_id", user_id); ("context", context); ("query", query)]) ok
                      :: rest)%list
    /\ forallb is_get_prompt rest = true
    /\ (length rest <= 1)%nat.
Proof.
  unfold resolve_prompt, try_catch, extern.
  destruct (get_prompt E "chat" "user_interaction" _ (world s)) as [[p | e1] w1].
  - eexists p, _, true, []. split; [reflexivity|].
    split; [reflexivity | split; [reflexivity | cbn; lia]].
  - cbn [world trace is_ok].
    destruct (get_prompt E "chat" "error_response" _ w1) as [[p | e2] w2];
      eexists _, _, false, [_]; (split; [reflexivity|]);
      (split; [cbn [trace]; now rewrite <- app_assoc|]);
      (split; [reflexivity | cbn; lia]).
Qed.

Lemma first_missing_key_none (self : MemoryManager) :
  first_missing_key self = None ->
  exists base_url model_name lc, client_configured self base_url model_name lc.
Proof.
  unfold first_missing_key.
  destruct (llm (memory_config (self_config self))) as [sec|] eqn:Hllm; [| discriminate].
  destruct (llm_config sec) as [lc|] eqn:Hcfg; [| discriminate].
  destruct (ollama_base_url lc) as [base|] eqn:Hurl; [| discriminate].
  destruct (model lc) as [mdl|] eqn:Hmodel; [| discriminate].
  intros _. exists base, mdl, lc. split; [now exists sec | exact Hurl | exact Hmodel].
Qed.

(** A missing key stops the client before it does anything. *)
Lemma call_ollama_api_missing_aux {W : Type} (E : Externals W) (self : MemoryManager)
    prompt (s : state W) key :
  first_missing_key self = Some key ->
  _call_ollama_api E self prompt s = (Raise (Exn KeyError (Py.repr_key key)), s).
Proof.
  unfold first_missing_key, _call_ollama_api.
  destruct (llm (memory_config (self_config self))) as [sec|]; [| now intros [= <-]].
  cbn [subscript]. rewrite (bind_ok _ _ _ (a := sec) (s' := s) eq_refl).
  destruct (llm_config sec) as [lc|]; [| now intros [= <-]].
  cbn [subscript]. rewrite (bind_ok _ _ _ (a := lc) (s' := s) eq_refl).
  destruct (ollama_base_url lc) as [base|]; [| now intros [= <-]].
  cbn [subscript]. rewrite (bind_ok _ _ _ (a := base) (s' := s) eq_refl).
  destruct (model lc) as [mdl|]; [discriminate | now intros [= <-]].
Qed.

Lemma usable_or_other (self : MemoryManager) :
  chat_options_usable self \/ exists t, chat_options (self_config self) = Some (ChatOther t).
Proof.
  unfold chat_options_usable, chat_mapping.
  destruct (chat_options (self_config self)) as [[co | t]|].
  - left. now exists co.
  - right. now exists t.
  - left. now exists no_chat_options.
Qed.

(** With the keys in place and a usable section the client makes one
    request, whatever comes back. *)
Lemma call_ollama_api_post_aux {W : Type} (E : Externals W) (self : MemoryManager)
    base_url model_name lc prompt (s : state W) :
  client_configured self base_url model_name lc ->
  chat_options_usable self ->
  let post := requests_post E (url_of base_url) (payload_of self model_name lc prompt)
                (timeout_of self) (world s) in
  exists r,
    _call_ollama_api E self prompt s
    = (r, St (snd post)
             (trace s ++ [Ev (request_of self base_url model_name lc prompt)
                             (is_ok (fst post))]))
    /\ forall text, r = Ok text ->
         exists resp v, fst post = Ok resp /\ json_body resp = Json v /\ answer v = Ok text.
Proof.
  intros Hc Hu post.
  rewrite (@call_ollama_api_configured _ E self base_url model_name lc prompt s Hc Hu).
  unfold bind at 1. unfold extern. fold post.
  destruct post as [[resp | e] w']; cbn [fst snd is_ok];
    [| eexists; split; [reflexivity | discriminate]].
  unfold bind at 1.
  destruct (raise_for_status resp _) as [[[] | e] s1] eqn:Hst;
    apply raise_for_status_state in Hst; subst s1;
    [| eexists; split; [reflexivity | discriminate]].
  unfold bind at 1. unfold response_json.
  destruct (json_body resp) as [v | msg] eqn:Hbody;
    [| eexists; split; [reflexivity | discriminate]].
  cbn [ret]. rewrite read_response_pure.
  eexists. split; [reflexivity|].
  intros text Htext. now exists resp, v.
Qed.

(** The client makes at most one call, a request. *)
Lemma call_ollama_api_calls_aux {W : Type} (E : Externals W) (self : MemoryManager)
    prompt (s s' : state W) r :
  _call_ollama_api E self prompt s = (r, s') ->
  exists evs, trace s' = (trace s ++ evs)%list
              /\ forallb is_post evs = true /\ (length evs <= 1)%nat.
Proof.
  intros Hrun.
  assert (Hnone : s' = s -> exists evs, trace s' = (trace s ++ evs)%list
                       /\ forallb is_post evs = true /\ (length evs <= 1)%nat).
  { intros ->. exists []. rewrite app_nil_r.
    split; [reflexivity | split; [reflexivity | cbn; lia]]. }
  destruct (first_missing_key self) as [key|] eqn:Hkey.
  - rewrite (@call_ollama_api_missing_aux _ E self prompt s key Hkey) in Hrun.
    injection Hrun as _ <-. now apply Hnone.
  - destruct (first_missing_key_none self Hkey) as (base & mdl & lc & Hc).
    destruct (usable_or_other self) as [Hu | [t Ht]].
    + destruct (@call_ollama_api_post_aux _ E self base mdl lc prompt s Hc Hu) as [r' [Hr' _]].
      rewrite Hr' in Hrun. injection Hrun as _ <-.
      eexists [_]. split; [reflexivity | split; [reflexivity | cbn; lia]].
    + rewrite (@call_ollama_api_unusable _ E self base mdl lc prompt s t Hc Ht) in Hrun.
      injection Hrun as _ <-. now apply Hnone.
Qed.

(** When the client answers, it answers a reply to the request it built. *)
Lemma call_ollama_api_answers {W : Type} (E : Externals W) (self : MemoryManager)
    prompt (s s' : state W) text :
  _call_ollama_api E self prompt s = (Ok text, s') ->
  exists base_url model_name lc resp v,
    client_configured self base_url model_name lc
    /\ chat_options_usable self
    /\ requests_post E (url_of base_url) (payload_of self model_name lc prompt)
         (timeout_of self) (world s) = (Ok resp, world s')
    /\ json_body resp = Json v
    /\ answer v = Ok text.
Proof.
  intros Hrun. destruct (first_missing_key self) as [key|] eqn:Hkey.
  - rewrite (@call_ollama_api_missing_aux _ E self prompt s key Hkey) in Hrun. discriminate.
  - destruct (first_missing_key_none self Hkey) as (base & mdl & lc & Hc).
    destruct (usable_or_other self) as [Hu | [t Ht]].
    + destruct (@call_ollama_api_post_aux _ E self base mdl lc prompt s Hc Hu)
        as [r' [Hr' Htext]].
      rewrite Hr' in Hrun. injection Hrun as -> <-.
      destruct (Htext text eq_refl) as (resp & v & Hpost & Hbody & Hans).
      exists base, mdl, lc, resp, v.
      split; [exact Hc | split; [exact Hu | split; [| split; assumption]]].
      cbn [world].
      destruct (requests_post E (url_of base) (payload_of self mdl lc prompt)
                  (timeout_of self) (world s)) as [o w'].
      cbn [fst snd] in *. now subst o.
    + rewrite (@call_ollama_api_unusable _ E self base mdl lc prompt s t Hc Ht) in Hrun.
      discriminate.
Qed.

(** [chat] from the outcomes of its three steps, once the limit is
    resolved. *)
Lemma chat_of_steps {W : Type} (E : Externals W) (self : MemoryManager)
    query user_id max_context_memories (s s1 s2 s3 : state W) memories prompt r :
  let uid := or_str user_id (self_user_id self) in
  let limit := or_int max_context_memories (configured_limit self) in
  limit_given max_context_memories = true \/ chat_options_usable self ->
  search_memories E self query (Some uid) limit s = (Ok memories, s1) ->
  resolve_prompt E uid (format_context uid memories) query s1 = (Ok prompt, s2) ->
  _call_ollama_api E self prompt s2 = (r, s3) ->
  chat E self query user_id max_context_memories s = (Ok (chat_answer r), s3).
Proof.
  intros uid limit Hl Hs Hp Hg.
  assert (Hbody : chat_body E self query uid limit s = (r, s3)).
  { unfold chat_body. rewrite (bind_ok _ _ _ Hs). now rewrite (bind_ok _ _ _ Hp). }
  rewrite (@chat_resolved _ E self query user_id max_context_memories s Hl). fold uid limit.
  destruct r as [text | e];
    [now rewrite (try_catch_ok _ _ _ Hbody) | now rewrite (try_catch_raise _ _ _ Hbody)].
Qed.

(** ** Read degradation *)

Lemma sorry_nonempty (msg : string) : sorry_prefix ++ msg <> "".
Proof. discriminate. Qed.

(** C7, as the code has it.  When the engine's search raises,
    [search_memories] returns [None] after that single call.  With the limit
    resolved (a truthy [max_context_memories], or ['chat_options'] missing or
    a dictionary), [chat] then still returns a string: it asks for the prompt
    with the no-information context, and its answer is non-empty unless the
    reply to the request of this very turn is a dictionary whose ['response']
    text is empty once stripped. *)
Theorem search_failure_degrades {W : Type} (E : Externals W) (self : MemoryManager)
    (query : string) (user_id : option string) (max_context_memories : option Z)
    (s : state W) :
  let uid := or_str user_id (self_user_id self) in
  let limit := or_int max_context_memories (configured_limit self) in
  let primary := CGetPrompt "chat" "user_interaction"
                   [("user_id", uid); ("context", no_information uid); ("query", query)] in
  (forall lim e w1,
      memory_search E query uid lim (world s) = (Raise e, w1) ->
      search_memories E self query user_id lim s
      = (Ok None, St w1 (trace s ++ [Ev (CSearch query uid lim) false])))
  /\ (limit_given max_context_memories = true \/ chat_options_usable self ->
      forall e w1,
        memory_search E query uid limit (world s) = (Raise e, w1) ->
        exists text s' ok rest prompt s2,
          chat E self query user_id max_context_memories s = (Ok text, s')
          /\ trace s' = (trace s ++ Ev (CSearch query uid limit) false
                                 :: Ev primary ok :: rest)%list
          /\ resolve_prompt E uid (no_information uid) query
               (St w1 (trace s ++ [Ev (CSearch query uid limit) false]))
             = (Ok prompt, s2)
          /\ (text <> ""
              \/ exists base_url model_name lc resp,
                   client_configured self base_url model_name lc
                   /\ requests_post E (url_of base_url)
                        (payload_of self model_name lc prompt) (timeout_of self) (world s2)
                      = (Ok resp, world s')
                   /\ blank_text resp)).
Proof.
  intros uid limit primary. split.
  - intros lim e w1 H.
    now rewrite (@search_memories_run _ E self query user_id lim s (Raise e) w1 H).
  - intros Hl e w1 H.
    pose proof (@chat_search_run _ E self query user_id limit s (Raise e) w1 H) as Hs.
    fold uid in Hs. cbn [is_ok] in Hs.
    destruct (resolve_prompt_calls E uid (no_information uid) query
                (St w1 (trace s ++ [Ev (CSearch query uid limit) false])))
      as (p & s2 & ok & rest & Hp & Htr & _).
    cbn [trace] in Htr. rewrite <- app_assoc in Htr. cbn [app] in Htr.
    destruct (_call_ollama_api E self p s2) as [r s3] eqn:Hg.
    destruct (call_ollama_api_calls_aux E self p s2 Hg) as (evs & Hevs & _).
    pose proof (@chat_of_steps _ E self query user_id max_context_memories s _ s2 s3
                  None p r Hl Hs Hp Hg) as Hchat.
    exists (chat_answer r), s3, ok, (rest ++ evs)%list, p, s2.
    split; [exact Hchat|].
    split; [rewrite Hevs, Htr, <- app_assoc; reflexivity|].
    split; [exact Hp|].
    destruct r as [text | e']; cbn [chat_answer]; [| left; apply sorry_nonempty].
    destruct (call_ollama_api_answers E self p s2 Hg)
      as (base & mdl & lc & resp & v & Hc & _ & Hpost & Hbody & Hans).
    destruct (answer_ok v Hans) as [-> | (items & txt & -> & Hget & ->)];
      [left; discriminate|].
    destruct (Py.strip txt) eqn:Hstrip; [| left; discriminate].
    right. exists base, mdl, lc, resp. split; [exact Hc | split; [exact Hpost|]].
    now exists items, txt.
Qed.

Lemma search_failure_degrades_witness :
  let w := Mock.set_search_error Mock.w0 (Some (Exn ConnectionError "store offline")) in
  search_memories Mock.E Mock.manager "What do I like?" None 5 (Mock.start w)
  = (Ok None, St w [Ev (CSearch "What do I like?" "bruce" 5) false])
  /\ exists s',
       chat Mock.E Mock.manager "What do I like?" None None (Mock.start w)
       = (Ok "You like pizza.", s').
Proof.
  intros w.
  pose proof (search_failure_degrades Mock.E Mock.manager "What do I like?" None None
                (Mock.start w)) as [H1 H2].
  split.
  - exact (H1 5 (Exn ConnectionError "store offline") w eq_refl).
  - destruct (H2 (or_intror mock_usable) (Exn ConnectionError "store offline") w eq_refl)
      as (text & s' & ok & rest & p & s2 & Hrun & _).
    exists s'. rewrite Hrun. f_equal.
    assert (Hc : chat Mock.E Mock.manager "What do I like?" None None (Mock.start w)
                 = (Ok "You like pizza.",
                    snd (chat Mock.E Mock.manager "What do I like?" None None (Mock.start w))))
      by (vm_compute; reflexivity).
    rewrite Hrun in Hc. now injection Hc as ->.
Defined.

(** The search raises and the endpoint replies with white space only: [chat]
    returns the empty string. *)
Lemma chat_returns_empty_text :
  let w := Mock.set_http
             (Mock.set_search_error Mock.w0 (Some (Exn ConnectionError "store offline")))
             (Ok (Mock.ok_response "  ")) in
  fst (memory_search Mock.E "What do I like?" "bruce" 5 w)
  = Raise (Exn ConnectionError "store offline")
  /\ fst (search_memories Mock.E Mock.manager "What do I like?" None 5 (Mock.start w)) = Ok None
  /\ fst (chat Mock.E Mock.manager "What do I like?" None None (Mock.start w)) = Ok "".
Proof.
  intros w. repeat split; vm_compute; reflexivity.
Qed.

(** ** Reset *)

Lemma reset_memories_unfold {W : Type} (E : Externals W) (self : MemoryManager) user_id :
  reset_memories E self user_id =
  let uid := or_str user_id (self_user_id self) in
  try_catch
    (all_memories <- get_all_memories E self (Some uid) ;;
     if negb (truthy_results all_memories)
     then ret 0
     else
       deleted_count <-
         for_acc
           (match all_memories with
            | Some d => get_or (results d) []
            | None => []
            end)
           0 (delete_step E) ;;
       ret deleted_count)
    (fun e => ret 0).
Proof. reflexivity. Qed.

(** The loop calls [memory.delete] on every record in order, counts the calls
    that returned and goes on after the others. *)
Lemma delete_loop_run {W : Type} (E : Externals W) (l : list MemoryRecord) :
  forall acc (s : state W),
  exists s' evs,
    for_acc l acc (delete_step E) s = (Ok (acc + count is_deleted evs), s')
    /\ trace s' = (trace s ++ evs)%list
    /\ delete_calls evs = map mem_id l.
Proof.
  induction l as [|r l IH]; intros acc s.
  - exists s, []. split; [| split].
    + cbn. now rewrite Z.add_0_r.
    + now rewrite app_nil_r.
    + reflexivity.
  - cbn [for_acc].
    destruct (memory_delete E (mem_id r) (world s)) as [[[] | e] w1] eqn:Hd.
    + destruct (IH (acc + 1) (St w1 (trace s ++ [Ev (CDelete (mem_id r)) true])))
        as (s' & evs & Hrun & Htr & Hcalls).
      exists s', (Ev (CDelete (mem_id r)) true :: evs).
      split; [| split].
      * erewrite bind_ok.
        2:{ unfold delete_step. erewrite try_catch_ok; [reflexivity|].
            erewrite bind_ok by (apply extern_eq; exact Hd). reflexivity. }
        cbn [is_ok]. rewrite Hrun. do 2 f_equal. unfold count. cbn -[Z.of_nat]. lia.
      * rewrite Htr. cbn [trace]. now rewrite <- app_assoc.
      * cbn [delete_calls flat_map ev_call app map]. fold (delete_calls evs).
        now rewrite Hcalls.
    + destruct (IH acc (St w1 (trace s ++ [Ev (CDelete (mem_id r)) false])))
        as (s' & evs & Hrun & Htr & Hcalls).
      exists s', (Ev (CDelete (mem_id r)) false :: evs).
      split; [| split].
      * erewrite bind_ok.
        2:{ unfold delete_step. erewrite try_catch_raise; [reflexivity|].
            erewrite bind_raise by (apply extern_eq; exact Hd). reflexivity. }
        cbn [is_ok]. rewrite Hrun. reflexivity.
      * rewrite Htr. cbn [trace]. now rewrite <- app_assoc.
      * cbn [delete_calls flat_map ev_call app map]. fold (delete_calls evs).
        now rewrite Hcalls.
Qed.

Lemma bind_ret_r {W A : Type} (m : M W A) (s : state W) :
  bind m (fun a => ret a) s = m s.
Proof. unfold bind, ret. now destruct (m s) as [[a | e] s']. Qed.

(** [reset_memories] once the listing has answered. *)
Lemma reset_memories_run {W : Type} (E : Externals W) (self : MemoryManager)
    user_id (s : state W) r w1 :
  let uid := or_str user_id (self_user_id self) in
  memory_get_all E uid (world s) = (r, w1) ->
  let s1 := St w1 (trace s ++ [Ev (CGetAll uid) (is_ok r)]) in
  reset_memories E self user_id s
  = match r with
    | Ok (Listed d) =>
        if has_results d
        then try_catch (for_acc (get_or (results d) []) 0 (delete_step E))
                       (fun e => ret 0) s1
        else (Ok 0, s1)
    | _ => (Ok 0, s1)
    end.
Proof.
  intros uid H s1. rewrite reset_memories_unfold. fold uid.
  pose proof (@get_all_memories_run _ E self (Some uid) s r w1) as Hg.
  unfold uid in Hg. rewrite or_str_idem in Hg. specialize (Hg H). fold uid in Hg.
  cbv zeta. unfold try_catch at 1. unfold bind at 1. rewrite Hg.
  destruct r as [[d | |] | e]; cbn [truthy_results as_dict]; try reflexivity.
  destruct (has_results d); cbn [negb]; [| reflexivity].
  rewrite bind_ret_r. reflexivity.
Qed.

Lemma filter_filter_and {A : Type} (p q : A -> bool) (l : list A) :
  filter p (filter q l) = filter (fun x => q x && p x) l.
Proof.
  induction l as [|x l IH]; [reflexivity|].
  cbn. destruct (q x); cbn; [destruct (p x) |]; now rewrite IH.
Qed.

Lemma filter_none {A : Type} (p : A -> bool) (l : list A) :
  (forall x, In x l -> p x = false) -> filter p l = [].
Proof.
  induction l as [|x l IH]; intros H; [reflexivity|].
  cbn. rewrite (H x (or_introl eq_refl)). apply IH. intros y Hy. apply H. now right.
Qed.

(** Every record of a list carries one of the list's identifiers. *)
Lemma id_among_own (l : list MemoryRecord) (r : MemoryRecord) :
  In r l -> id_among (map mem_id l) r = true.
Proof.
  intros H. unfold id_among. apply existsb_exists. exists (mem_id r).
  split; [now apply in_map | apply String.eqb_refl].
Qed.

(** On a reliable engine every deletion counts, and what is left is what
    carries none of the identifiers. *)
Lemma delete_loop_reliable {W : Type} (E : Externals W) stored (l : list MemoryRecord) :
  Reliable E stored ->
  forall acc (s : state W),
  exists s',
    for_acc l acc (delete_step E) s = (Ok (acc + Z.of_nat (length l)), s')
    /\ forall u, stored (world s') u
                 = filter (fun r => negb (id_among (map mem_id l) r)) (stored (world s) u).
Proof.
  intros HR. induction l as [|r l IH]; intros acc s.
  - exists s. split; [cbn; now rewrite Z.add_0_r|].
    intros u. cbn. induction (stored (world s) u) as [|x xs IHx]; [reflexivity|].
    cbn. now rewrite <- IHx.
  - destruct (reliable_delete HR (mem_id r) (world s)) as (w1 & Hd & Hst).
    destruct (IH (acc + 1) (St w1 (trace s ++ [Ev (CDelete (mem_id r)) true])))
      as (s' & Hrun & Hleft).
    exists s'. split.
    + cbn [for_acc]. erewrite bind_ok.
      2:{ unfold delete_step. erewrite try_catch_ok; [reflexivity|].
          erewrite bind_ok by (apply extern_eq; exact Hd). reflexivity. }
      cbn [is_ok]. rewrite Hrun. do 2 f_equal. cbn [length]. lia.
    + intros u. rewrite Hleft. cbn [world]. rewrite Hst, filter_filter_and.
      apply filter_ext. intros x. cbn [map id_among existsb]. unfold has_id, id_among.
      now rewrite negb_orb.
Qed.

(** [reset_memories] returns the number of deletions that went through,
    having tried every listed record in order. *)
Lemma reset_memories_total {W : Type} (E : Externals W) (self : MemoryManager)
    (user_id : option string) (s : state W) :
  let uid := or_str user_id (self_user_id self) in
  exists n s' ok evs,
    reset_memories E self user_id s = (Ok n, s')
    /\ trace s' = (trace s ++ Ev (CGetAll uid) ok :: evs)%list
    /\ n = count is_deleted evs
    /\ forall l w1,
         memory_get_all E uid (world s) = (Ok (Listed {| results := Some l |}), w1) ->
         delete_calls evs = map mem_id l.
Proof.
  intros uid.
  destruct (memory_get_all E uid (world s)) as [r w1] eqn:Hg.
  rewrite (@reset_memories_run _ E self user_id s r w1 Hg). fold uid.
  destruct r as [[d | |] | e]; [destruct (has_results d) eqn:Hd | | |].
  + destruct (delete_loop_run E (get_or (results d) []) 0
                (St w1 (trace s ++ [Ev (CGetAll uid) (is_ok (Ok (Listed d)))])))
      as (s' & evs & Hrun & Htr & Hcalls).
    exists (count is_deleted evs), s', true, evs.
    rewrite (try_catch_ok _ _ _ Hrun). split; [reflexivity|].
    split; [rewrite Htr; cbn [trace is_ok]; now rewrite <- app_assoc|].
    split; [reflexivity|].
    intros l w2 [= -> _]. exact Hcalls.
  + exists 0, (St w1 (trace s ++ [Ev (CGetAll uid) true])), true, [].
    repeat split. intros l w2 [= -> _].
    destruct l; [reflexivity | discriminate].
  + exists 0, (St w1 (trace s ++ [Ev (CGetAll uid) true])), true, [].
    repeat split. intros l w2 [=].
  + exists 0, (St w1 (trace s ++ [Ev (CGetAll uid) true])), true, [].
    repeat split. intros l w2 [=].
  + exists 0, (St w1 (trace s ++ [Ev (CGetAll uid) false])), false, [].
    repeat split. intros l w2 [=].
Qed.

(** C8.  [reset_memories] always returns a number: the count of the
    [memory.delete] calls that returned, every listed record being tried in
    order whatever happened to the ones before.  It is 0 when the listing has
    no record (no ['results'], an empty list, [None] under ['results'] or no
    dictionary at all) or raises.  On a reliable engine holding records of the
    user, a first call returns their (positive) number and a second call
    right after returns 0. *)
Theorem reset_memories_counts {W : Type} (E : Externals W) (self : MemoryManager)
    (user_id : option string) (s : state W) :
  let uid := or_str user_id (self_user_id self) in
  (exists n s' ok evs,
      reset_memories E self user_id s = (Ok n, s')
      /\ trace s' = (trace s ++ Ev (CGetAll uid) ok :: evs)%list
      /\ n = count is_deleted evs
      /\ forall l w1,
           memory_get_all E uid (world s) = (Ok (Listed {| results := Some l |}), w1) ->
           delete_calls evs = map mem_id l)
  /\ (forall r w1,
        memory_get_all E uid (world s) = (Ok r, w1) ->
        truthy_results (as_dict r) = false ->
        reset_memories E self user_id s
        = (Ok 0, St w1 (trace s ++ [Ev (CGetAll uid) true])))
  /\ (forall e w1,
        memory_get_all E uid (world s) = (Raise e, w1) ->
        reset_memories E self user_id s
        = (Ok 0, St w1 (trace s ++ [Ev (CGetAll uid) false])))
  /\ (forall stored,
        Reliable E stored -> stored (world s) uid <> [] ->
        exists n s1 s2,
          reset_memories E self user_id s = (Ok n, s1)
          /\ 0 < n
          /\ n = Z.of_nat (length (stored (world s) uid))
          /\ reset_memories E self user_id s1 = (Ok 0, s2)).
Proof.
  intros uid. split; [| split; [| split]].
  - apply reset_memories_total.
  - intros r w1 Hg Hr. rewrite (@reset_memories_run _ E self user_id s _ w1 Hg). fold uid.
    destruct r as [d | |]; cbn [as_dict truthy_results] in Hr; [| reflexivity..].
    now rewrite Hr.
  - intros e w1 Hg. now rewrite (@reset_memories_run _ E self user_id s _ w1 Hg).
  - intros stored HR Hne.
    destruct (reliable_get_all HR uid (world s)) as (w1 & Hg & Hsame).
    set (l := stored (world s) uid) in *.
    destruct (delete_loop_reliable l HR 0 (St w1 (trace s ++ [Ev (CGetAll uid) true])))
      as (s1 & Hrun & Hleft).
    assert (Hempty : stored (world s1) uid = []).
    { rewrite Hleft. cbn [world]. rewrite Hsame. fold l.
      apply filter_none. intros x Hx. now rewrite (id_among_own l x Hx). }
    destruct (reliable_get_all HR uid (world s1)) as (w2 & Hg2 & _).
    rewrite Hempty in Hg2.
    exists (Z.of_nat (length l)), s1, (St w2 (trace s1 ++ [Ev (CGetAll uid) true])).
    split; [| split; [| split]].
    + rewrite (@reset_memories_run _ E self user_id s _ w1 Hg). fold uid.
      cbn [has_results results get_or is_ok].
      destruct l as [|x l']; [contradiction|].
      now rewrite (try_catch_ok _ _ _ Hrun).
    + destruct l; [contradiction | cbn [length]; lia].
    + reflexivity.
    + now rewrite (@reset_memories_run _ E self user_id s1 _ w2 Hg2).
Qed.

Lemma records_of_without (i user : string) (st : list (string * MemoryRecord)) :
  Mock.records_of user (Mock.without i st)
  = filter (fun r => negb (has_id i r)) (Mock.records_of user st).
Proof.
  unfold Mock.records_of, Mock.without.
  induction st as [|[u r] st IH]; [reflexivity|].
  cbn [filter fst snd].
  destruct (mem_id r =? i)%string eqn:Hi; destruct (u =? user)%string eqn:Hu;
    cbn [negb filter fst snd map]; unfold has_id at 1; rewrite ?Hu, ?Hi;
    cbn [negb map snd]; now rewrite IH.
Qed.

Lemma mock_reliable : Reliable Mock.E_reliable Mock.stored.
Proof.
  split.
  - intros u w. exists w. now split.
  - intros i w. eexists. split; [reflexivity|].
    intros u. apply records_of_without.
Qed.

Lemma reset_memories_counts_witness :
  Mock.stored Mock.w0 "bruce" <> []
  /\ exists s1 s2,
       reset_memories Mock.E_reliable Mock.manager None (Mock.start Mock.w0) = (Ok 4, s1)
       /\ reset_memories Mock.E_reliable Mock.manager None s1 = (Ok 0, s2).
Proof.
  assert (Hne : Mock.stored Mock.w0 "bruce" <> []) by discriminate.
  split; [exact Hne|].
  destruct (proj2 (proj2 (proj2 (reset_memories_counts Mock.E_reliable Mock.manager None
                                   (Mock.start Mock.w0))))
              Mock.stored mock_reliable Hne)
    as (n & s1 & s2 & H1 & _ & Hn & H2).
  exists s1, s2. split; [| exact H2].
  rewrite H1, Hn. reflexivity.
Defined.


(** ** Search *)




(** ** Falsy arguments *)

(** The calls of a [chat] turn whose limit is resolved: one search with the
    resolved user and limit, one or two requests for a prompt, at most one
    generation request. *)
Lemma chat_shape {W : Type} (E : Externals W) (self : MemoryManager)
    query user_id max_context_memories (s : state W) :
  let uid := or_str user_id (self_user_id self) in
  let limit := or_int max_context_memories (configured_limit self) in
  limit_given max_context_memories = true \/ chat_options_usable self ->
  exists text s' ok pevs gevs,
    chat E self query user_id max_context_memories s = (Ok text, s')
    /\ trace s' = (trace s ++ Ev (CSearch query uid limit) ok :: pevs ++ gevs)%list
    /\ forallb is_get_prompt pevs = true
    /\ (1 <= length pevs <= 2)%nat
    /\ forallb is_post gevs = true
    /\ (length gevs <= 1)%nat.
Proof.
  intros uid limit Hl.
  destruct (memory_search E query uid limit (world s)) as [o w1] eqn:Hs.
  pose proof (@chat_search_run _ E self query user_id limit s o w1 Hs) as Hsm.
  fold uid in Hsm.
  set (memories := match o with Ok d => as_dict d | Raise _ => None end) in Hsm.
  destruct (resolve_prompt_calls E uid (format_context uid memories) query
              (St w1 (trace s ++ [Ev (CSearch query uid limit) (is_ok o)])))
    as (p & s2 & ok & rest & Hp & Htr & Hpk & Hpl).
  destruct (_call_ollama_api E self p s2) as [r s3] eqn:Hg.
  destruct (call_ollama_api_calls_aux E self p s2 Hg) as (gevs & Hgtr & Hgk & Hgl).
  eexists (chat_answer r), s3, (is_ok o), (_ :: rest), gevs.
  split; [exact (@chat_of_steps _ E self query user_id max_context_memories s _ s2 s3
                   memories p r Hl Hsm Hp Hg)|].
  split; [rewrite Hgtr, Htr; cbn [trace]; rewrite <- !app_assoc; reflexivity|].
  split; [exact Hpk|].
  split; [cbn [length]; lia | split; assumption].
Qed.

(** [chat] returns, and the first thing it does is search with the resolved
    user and limit. *)
Lemma chat_trace {W : Type} (E : Externals W) (self : MemoryManager)
    query user_id max_context_memories (s : state W) :
  limit_given max_context_memories = true \/ chat_options_usable self ->
  exists text s' ok rest,
    chat E self query user_id max_context_memories s = (Ok text, s')
    /\ trace s' = (trace s
                   ++ Ev (CSearch query (or_str user_id (self_user_id self))
                            (or_int max_context_memories (configured_limit self)))
                         ok :: rest)%list.
Proof.
  intros Hl.
  destruct (@chat_shape _ E self query user_id max_context_memories s Hl)
    as (text & s' & ok & pevs & gevs & Hrun & Htr & _).
  now exists text, s', ok, (pevs ++ gevs)%list.
Qed.

(** C10.  In [add_fact], [search_memories], [get_all_memories],
    [reset_memories] and [chat], the empty string as [user_id] does what
    [None] does: the engine is called with [self.user_id].  In [chat],
    [max_context_memories=0] does what [None] does: the search is made with
    the value the configuration gives under ['chat_options'], whatever it is,
    and with 5 when the configuration gives none. *)
Theorem falsy_arguments_default {W : Type} (E : Externals W) (self : MemoryManager) :
  let d := self_user_id self in
  (forall fact md n,
      add_fact E self fact (Some "") md n = add_fact E self fact None md n
      /\ add_fact E self fact (Some "") md n
         = for_return (range n) (attempt_body E fact md d n) (ret None))
  /\ (forall query limit s,
        search_memories E self query (Some "") limit s
        = search_memories E self query None limit s
        /\ exists r w' ok,
             search_memories E self query (Some "") limit s
             = (r, St w' (trace s ++ [Ev (CSearch query d limit) ok])))
  /\ (forall s,
        get_all_memories E self (Some "") s = get_all_memories E self None s
        /\ exists r w' ok,
             get_all_memories E self (Some "") s
             = (r, St w' (trace s ++ [Ev (CGetAll d) ok])))
  /\ (forall s,
        reset_memories E self (Some "") s = reset_memories E self None s
        /\ exists n s' ok evs,
             reset_memories E self (Some "") s = (Ok n, s')
             /\ trace s' = (trace s ++ Ev (CGetAll d) ok :: evs)%list)
  /\ (forall query mcm s,
        chat E self query (Some "") mcm s = chat E self query None mcm s)
  /\ (forall query user_id s,
        chat E self query user_id (Some 0) s = chat E self query user_id None s)
  /\ (forall co c,
        chat_options (self_config self) = Some (ChatMap co) ->
        max_context_memories co = Some c ->
        forall query user_id s,
        exists text s' ok rest,
          chat E self query user_id (Some 0) s = (Ok text, s')
          /\ trace s' = (trace s ++ Ev (CSearch query (or_str user_id d) c) ok :: rest)%list)
  /\ (chat_options (self_config self) = None
      \/ (exists co, chat_options (self_config self) = Some (ChatMap co)
                     /\ max_context_memories co = None) ->
      forall query user_id s,
      exists text s' ok rest,
        chat E self query user_id (Some 0) s = (Ok text, s')
        /\ trace s' = (trace s ++ Ev (CSearch query (or_str user_id d) 5) ok :: rest)%list).
Proof.
  intros d. split; [| split; [| split; [| split; [| split; [| split; [| split]]]]]].
  - intros fact md n. split; reflexivity.
  - intros query limit s. split; [reflexivity|].
    destruct (memory_search E query d limit (world s)) as [o w1] eqn:Hs.
    pose proof (@search_memories_run _ E self query (Some "") limit s o w1 Hs) as Hrun.
    eexists _, w1, _. exact Hrun.
  - intros s. split; [reflexivity|].
    destruct (memory_get_all E d (world s)) as [o w1] eqn:Hg.
    pose proof (@get_all_memories_run _ E self (Some "") s o w1 Hg) as Hrun.
    eexists _, w1, _. exact Hrun.
  - intros s. split; [reflexivity|].
    destruct (reset_memories_total E self (Some "") s)
      as (n & s' & ok & evs & Hrun & Htr & _).
    now exists n, s', ok, evs.
  - intros query mcm s. reflexivity.
  - intros query user_id s. reflexivity.
  - intros co c Hco Hc query user_id s.
    assert (Hu : chat_options_usable self).
    { exists co. unfold chat_mapping. now rewrite Hco. }
    destruct (@chat_trace _ E self query user_id (Some 0) s (or_intror Hu))
      as (text & s' & ok & rest & Hrun & Htr).
    exists text, s', ok, rest. split; [exact Hrun|].
    rewrite Htr. unfold configured_limit, chat_mapping. rewrite Hco.
    cbn [or_int get_or Z.eqb]. now rewrite Hc.
  - intros Hnone query user_id s.
    assert (Hu : chat_options_usable self).
    { unfold chat_options_usable, chat_mapping.
      destruct Hnone as [-> | (co & -> & _)]; now eexists. }
    destruct (@chat_trace _ E self query user_id (Some 0) s (or_intror Hu))
      as (text & s' & ok & rest & Hrun & Htr).
    exists text, s', ok, rest. split; [exact Hrun|].
    rewrite Htr. unfold configured_limit, chat_mapping.
    destruct Hnone as [-> | (co & -> & Hco)]; cbn [or_int get_or Z.eqb];
      [reflexivity | now rewrite Hco].
Qed.

Lemma falsy_arguments_default_witness :
  (exists text s' ok rest,
      chat Mock.E Mock.manager_two "What do I like?" (Some "") (Some 0) (Mock.start Mock.w0)
      = (Ok text, s')
      /\ trace s' = Ev (CSearch "What do I like?" "bruce" 2) ok :: rest)
  /\ (exists text s' ok rest,
        chat Mock.E Mock.manager "What do I like?" (Some "") (Some 0) (Mock.start Mock.w0)
        = (Ok text, s')
        /\ trace s' = Ev (CSearch "What do I like?" "bruce" 5) ok :: rest).
Proof.
  split.
  - exact (proj1 (proj2 (proj2 (proj2 (proj2 (proj2 (proj2
             (falsy_arguments_default Mock.E Mock.manager_two)))))))
             _ 2 eq_refl eq_refl "What do I like?" (Some "") (Mock.start Mock.w0)).
  - exact (proj2 (proj2 (proj2 (proj2 (proj2 (proj2 (proj2
             (falsy_arguments_default Mock.E Mock.manager)))))))
             (or_introl eq_refl) "What do I like?" (Some "") (Mock.start Mock.w0)).
Defined.

(** ** Further properties: writes *)

Lemma count_cons (p : event -> bool) (ev : event) (evs : list event) :
  count p (ev :: evs) = (if p ev then 1 else 0) + count p evs.
Proof. unfold count. cbn [filter]. destruct (p ev); cbn [length]; lia. Qed.

Lemma count_nil (p : event -> bool) : count p [] = 0.
Proof. reflexivity. Qed.

(** The retry loop from attempt [i] on, with [k] attempts left, for any
    engine: every attempt but the one that ends the loop is followed by a
    sleep. *)
Lemma retry_loop_bounded {W : Type} (E : Externals W) fact metadata user max_retries :
  forall k i (s : state W),
    (k = 0%nat \/ Z.of_nat (i + k) = max_retries) ->
    exists r s' evs,
      for_return (map Z.of_nat (seq i k)) (attempt_body E fact metadata user max_retries)
        (ret None) s = (Ok r, s')
      /\ trace s' = (trace s ++ evs)%list
      /\ Forall (retry_event fact user metadata) evs
      /\ count is_add evs <= Z.of_nat k
      /\ (k = 0%nat -> evs = [])
      /\ (k <> 0%nat -> count is_sleep evs = count is_add evs - 1).
Proof.
  induction k as [|k IH]; intros i s Hk.
  - exists None, s, []. rewrite app_nil_r.
    repeat split; try reflexivity; try constructor; rewrite ?count_nil; lia.
  - destruct Hk as [Hk | Hk]; [discriminate|].
    cbn [seq map for_return].
    destruct (memory_add E fact user metadata (world s)) as [o w1] eqn:Hadd.
    pose proof (@attempt_body_run _ E fact metadata user max_retries (Z.of_nat i) s o w1 Hadd)
      as Hrun.
    assert (Hone : forall r,
               exists r' s' evs,
                 (Ok r : outcome (option AddResult),
                  St w1 (trace s ++ [Ev (CAdd fact user metadata) (is_ok o)]))
                 = (Ok r', s')
                 /\ trace s' = (trace s ++ evs)%list
                 /\ Forall (retry_event fact user metadata) evs
                 /\ count is_add evs <= Z.of_nat (S k)
                 /\ (S k = 0%nat -> evs = [])
                 /\ (S k <> 0%nat -> count is_sleep evs = count is_add evs - 1)).
    { intros r. eexists r, _, [_]. split; [reflexivity|]. split; [reflexivity|].
      split; [constructor; [now left | constructor]|].
      rewrite !count_cons, !count_nil. cbn [is_add is_sleep ev_call].
      split; [lia | split; [discriminate | lia]]. }
    destruct (attempt_failed o) eqn:Hfail;
      [destruct (Z.of_nat i <? max_retries - 1) eqn:Hlt |];
      erewrite bind_ok by exact Hrun; try apply Hone.
    apply Z.ltb_lt in Hlt.
    destruct (IH (S i)
                (St (time_sleep E 2 w1)
                    (trace s ++ [Ev (CAdd fact user metadata) (is_ok o);
                                 Ev (CSleep 2) true])))
      as (r & s' & evs & Hloop & Htr & Hall & Hadds & _ & Hsleeps); [right; lia|].
    exists r, s', (Ev (CAdd fact user metadata) (is_ok o) :: Ev (CSleep 2) true :: evs).
    split; [exact Hloop|].
    split; [rewrite Htr; cbn [trace]; now rewrite <- app_assoc|].
    split; [constructor; [now left | constructor; [now right | exact Hall]]|].
    rewrite !count_cons. cbn [is_add is_sleep ev_call].
    split; [lia | split; [discriminate|]].
    intros _. rewrite Hsleeps by lia. lia.
Qed.

(** X1.  Whatever the engine does, [add_fact] returns without raising; it
    only calls [memory.add] for the given fact and resolved user and sleeps
    2 seconds; it makes at most [max_retries] attempts and at most
    [max_retries - 1] sleeps, and it sleeps after every attempt but its last
    one: one sleep less than attempts, none without an attempt. *)
Theorem add_fact_bounded {W : Type} (E : Externals W) (self : MemoryManager)
    (fact : string) (user_id : option string) (metadata : option metadata_t)
    (max_retries : Z) (s : state W) :
  let user := or_str user_id (self_user_id self) in
  exists r s' evs,
    add_fact E self fact user_id metadata max_retries s = (Ok r, s')
    /\ trace s' = (trace s ++ evs)%list
    /\ Forall (retry_event fact user metadata) evs
    /\ count is_add evs <= Z.max 0 max_retries
    /\ count is_sleep evs <= Z.max 0 (max_retries - 1)
    /\ count is_sleep evs = Z.max 0 (count is_add evs - 1).
Proof.
  intros user. rewrite add_fact_unfold. fold user. unfold range.
  destruct (@retry_loop_bounded _ E fact metadata user max_retries
              (Z.to_nat max_retries) 0%nat s)
    as (r & s' & evs & Hrun & Htr & Hall & Hadds & Hnone & Hsleeps).
  { destruct (Z.to_nat max_retries) eqn:Hn; [now left | right; lia]. }
  exists r, s', evs.
  split; [exact Hrun | split; [exact Htr | split; [exact Hall|]]].
  assert (0 <= count is_sleep evs) by (unfold count; lia).
  destruct (Z.to_nat max_retries) as [|n] eqn:Hn.
  - rewrite (Hnone eq_refl), !count_nil. lia.
  - specialize (Hsleeps ltac:(discriminate)). lia.
Qed.

Lemma add_fact_no_attempt_witness :
  add_fact Mock.E Mock.manager "Likes tea" None None 0 (Mock.start Mock.w0)
  = (Ok None, Mock.start Mock.w0).
Proof.
  refine (add_fact_no_attempt Mock.E Mock.manager "Likes tea" None None
            (Mock.start Mock.w0) _).
  discriminate.
Defined.

(** ** Further properties: listing and reset *)

(** X3.  [get_all_memories] never raises and makes exactly one call,
    [memory.get_all] for the resolved user.  It returns a dictionary exactly
    when the engine returned one whose ['results'] the debug line can count,
    and then that very dictionary; a returned dictionary with [None] under
    ['results'], a returned [None] and a call that raised all give [None]. *)
Theorem get_all_memories_single_call {W : Type} (E : Externals W) (self : MemoryManager)
    (user_id : option string) (s : state W) :
  let uid := or_str user_id (self_user_id self) in
  (exists res s' ok,
      get_all_memories E self user_id s = (Ok res, s')
      /\ trace s' = (trace s ++ [Ev (CGetAll uid) ok])%list
      /\ forall d, res = Some d <->
                   memory_get_all E uid (world s) = (Ok (Listed d), world s'))
  /\ (forall d w',
        memory_get_all E uid (world s) = (Ok (Listed d), w') ->
        get_all_memories E self user_id s
        = (Ok (Some d), St w' (trace s ++ [Ev (CGetAll uid) true])))
  /\ (forall r w',
        memory_get_all E uid (world s) = (Ok r, w') -> r = NullResults \/ r = NoDict ->
        get_all_memories E self user_id s
        = (Ok None, St w' (trace s ++ [Ev (CGetAll uid) true])))
  /\ (forall e w',
        memory_get_all E uid (world s) = (Raise e, w') ->
        get_all_memories E self user_id s
        = (Ok None, St w' (trace s ++ [Ev (CGetAll uid) false]))).
Proof.
  intros uid.
  destruct (memory_get_all E uid (world s)) as [o w1] eqn:Hg.
  pose proof (@get_all_memories_run _ E self user_id s o w1 Hg) as Hrun. fold uid in Hrun.
  split; [| split; [| split]].
  - eexists _, _, _. split; [exact Hrun|]. split; [reflexivity|].
    cbn [world]. intros d. split.
    + destruct o as [[d0 | |] | e]; cbn [as_dict]; try discriminate.
      now intros [= ->].
    + now intros [= ->].
  - intros d w' [= -> ->]. exact Hrun.
  - intros r w' [= -> ->] [-> | ->]; exact Hrun.
  - intros e w' [= -> ->]. exact Hrun.
Qed.

Lemma get_all_memories_single_call_witness :
  get_all_memories Mock.E Mock.manager (Some "alice") (Mock.start Mock.w0)
  = (Ok (Some {| results := Some [Mock.tea] |}), St Mock.w0 [Ev (CGetAll "alice") true])
  /\ get_all_memories Mock.E_null Mock.manager (Some "alice") (Mock.start Mock.w0)
     = (Ok None, St Mock.w0 [Ev (CGetAll "alice") true]).
Proof.
  split.
  - exact (proj1 (proj2 (get_all_memories_single_call Mock.E Mock.manager (Some "alice")
                           (Mock.start Mock.w0)))
             {| results := Some [Mock.tea] |} Mock.w0 eq_refl).
  - exact (proj1 (proj2 (proj2 (get_all_memories_single_call Mock.E_null Mock.manager
                                  (Some "alice") (Mock.start Mock.w0))))
             NullResults Mock.w0 eq_refl (or_introl eq_refl)).
Defined.

(** A deletion event either went through or failed. *)
Lemma delete_calls_length (evs : list event) :
  Z.of_nat (length (delete_calls evs)) = count is_deleted evs + count is_failed_delete evs.
Proof.
  induction evs as [|[c ok] evs IH]; [reflexivity|].
  rewrite !count_cons.
  change (delete_calls ({| ev_call := c; ev_ok := ok |} :: evs))
    with ((match c with CDelete i => [i] | _ => [] end) ++ delete_calls evs)%list.
  rewrite length_app, Nat2Z.inj_add, IH.
  destruct c; try (destruct ok);
    cbn [is_deleted is_failed_delete ev_call ev_ok length negb Z.of_nat]; lia.
Qed.

(** X4.  When the listing returns the records [l], the number
    [reset_memories] returns plus the number of [memory.delete] calls that
    raised is the number of records: the result lies between 0 and
    [len(l)]. *)
Theorem reset_memories_bounds {W : Type} (E : Externals W) (self : MemoryManager)
    (user_id : option string) (s : state W) (l : list MemoryRecord) (w1 : W) :
  let uid := or_str user_id (self_user_id self) in
  memory_get_all E uid (world s) = (Ok (Listed {| results := Some l |}), w1) ->
  exists n s' evs,
    reset_memories E self user_id s = (Ok n, s')
    /\ trace s' = (trace s ++ Ev (CGetAll uid) true :: evs)%list
    /\ delete_calls evs = map mem_id l
    /\ n + count is_failed_delete evs = Z.of_nat (length l)
    /\ 0 <= n <= Z.of_nat (length l).
Proof.
  intros uid Hg.
  destruct (reset_memories_total E self user_id s)
    as (n & s' & ok & evs & Hrun & Htr & Hn & Hcalls).
  fold uid in Htr, Hcalls. specialize (Hcalls l w1 Hg).
  assert (Hok : ok = true).
  { pose proof (@reset_memories_run _ E self user_id s _ w1 Hg) as Hr. fold uid in Hr.
    cbn [is_ok] in Hr.
    destruct (has_results {| results := Some l |}).
    - destruct (delete_loop_run E (get_or (results {| results := Some l |}) []) 0
                  (St w1 (trace s ++ [Ev (CGetAll uid) true])))
        as (s2 & evs2 & Hrun2 & Htr2 & _).
      rewrite (try_catch_ok _ _ _ Hrun2) in Hr. rewrite Hr in Hrun.
      injection Hrun as _ <-. rewrite Htr2 in Htr. cbn [trace] in Htr.
      rewrite <- app_assoc in Htr. apply app_inv_head in Htr.
      now injection Htr as <- _.
    - rewrite Hr in Hrun. injection Hrun as _ <-. cbn [trace] in Htr.
      apply app_inv_head in Htr. now injection Htr as <- _. }
  subst ok.
  pose proof (delete_calls_length evs) as Hlen.
  rewrite Hcalls, length_map in Hlen.
  assert (0 <= count is_deleted evs) by (unfold count; lia).
  assert (0 <= count is_failed_delete evs) by (unfold count; lia).
  exists n, s', evs. repeat split; try assumption; lia.
Qed.

Lemma reset_memories_bounds_witness :
  let w := Mock.set_delete_failing Mock.w0 ["m2"] in
  exists s',
    reset_memories Mock.E Mock.manager None (Mock.start w) = (Ok 3, s')
    /\ length (Mock.stored w "bruce") = 4%nat.
Proof.
  intros w.
  destruct (@reset_memories_bounds _ Mock.E Mock.manager None (Mock.start w)
              (Mock.stored w "bruce") w eq_refl)
    as (n & s' & evs & Hrun & _).
  exists s'. split; [| reflexivity].
  rewrite Hrun. f_equal. f_equal.
  assert (Hc : reset_memories Mock.E Mock.manager None (Mock.start w)
               = (Ok 3, snd (reset_memories Mock.E Mock.manager None (Mock.start w))))
    by reflexivity.
  rewrite Hrun in Hc. now injection Hc.
Defined.

Lemma filter_all {A : Type} (p : A -> bool) (l : list A) :
  (forall x, In x l -> p x = true) -> filter p l = l.
Proof.
  induction l as [|x l IH]; intros H; [reflexivity|].
  cbn. rewrite (H x (or_introl eq_refl)). f_equal. apply IH. intros y Hy. apply H. now right.
Qed.

(** X5.  On a reliable engine, after [reset_memories] the user has no record
    left, and a user none of whose records shares an identifier with a record
    of the reset user keeps all of them. *)
Theorem reset_memories_clears_user {W : Type} (E : Externals W) (self : MemoryManager)
    (stored : W -> string -> list MemoryRecord) (user_id : option string) (s : state W) :
  let uid := or_str user_id (self_user_id self) in
  Reliable E stored ->
  exists n s',
    reset_memories E self user_id s = (Ok n, s')
    /\ stored (world s') uid = []
    /\ forall other,
         (forall r r', In r (stored (world s) uid) -> In r' (stored (world s) other) ->
                       mem_id r' <> mem_id r) ->
         stored (world s') other = stored (world s) other.
Proof.
  intros uid HR.
  destruct (reliable_get_all HR uid (world s)) as (w1 & Hg & Hsame).
  pose proof (@reset_memories_run _ E self user_id s _ w1 Hg) as Hrun. fold uid in Hrun.
  cbn [is_ok] in Hrun. set (l := stored (world s) uid) in *.
  destruct l as [|x l'] eqn:Hl.
  - cbn [has_results results] in Hrun.
    exists 0, (St w1 (trace s ++ [Ev (CGetAll uid) true])).
    split; [exact Hrun|]. cbn [world]. split; [now rewrite Hsame | intros other _; apply Hsame].
  - rewrite <- Hl in *. clear x l' Hl.
    destruct (delete_loop_reliable l HR 0 (St w1 (trace s ++ [Ev (CGetAll uid) true])))
      as (s1 & Hloop & Hleft).
    exists (0 + Z.of_nat (length l)), s1. split; [| split].
    + rewrite Hrun. cbn [results get_or].
      destruct (has_results {| results := Some l |}) eqn:Hh.
      * now rewrite (try_catch_ok _ _ _ Hloop).
      * unfold has_results in Hh. cbn [results] in Hh. subst l.
        destruct (stored (world s) uid); [|discriminate].
        cbn in Hloop. injection Hloop as <-. reflexivity.
    + rewrite Hleft. cbn [world]. rewrite Hsame. fold l.
      apply filter_none. intros r Hr. now rewrite (id_among_own l r Hr).
    + intros other Hdisj. rewrite Hleft. cbn [world]. rewrite Hsame.
      apply filter_all. intros r' Hr'. apply negb_true_iff.
      unfold id_among. destruct (existsb _ _) eqn:Hex; [| reflexivity].
      apply existsb_exists in Hex. destruct Hex as (i & Hi & Heq).
      apply in_map_iff in Hi. destruct Hi as (r & <- & Hr).
      apply String.eqb_eq in Heq. exfalso. exact (Hdisj r r' Hr Hr' Heq).
Qed.

Lemma reset_memories_clears_user_witness :
  exists n s',
    reset_memories Mock.E_reliable Mock.manager (Some "bruce") (Mock.start Mock.w0)
    = (Ok n, s')
    /\ Mock.stored (world s') "bruce" = []
    /\ Mock.stored (world s') "alice" = [Mock.tea].
Proof.
  destruct (reset_memories_clears_user Mock.manager (Some "bruce") (Mock.start Mock.w0)
              mock_reliable)
    as (n & s' & Hrun & Hnone & Hother).
  exists n, s'. split; [exact Hrun | split; [exact Hnone|]].
  rewrite (Hother "alice"); [reflexivity|].
  intros r r' Hr Hr'. cbn in Hr, Hr'.
  destruct Hr' as [<- | []].
  destruct Hr as [<- | [<- | [<- | [<- | []]]]]; discriminate.
Defined.

(** ** Further properties: the generation client *)

(** X6.  When a key the client reads with a subscript is missing from the
    configuration, [_call_ollama_api] raises [KeyError] for the first such key
    without sending anything. *)
Theorem call_ollama_api_missing_key {W : Type} (E : Externals W) (self : MemoryManager)
    (prompt key : string) (s : state W) :
  first_missing_key self = Some key ->
  _call_ollama_api E self prompt s = (Raise (Exn KeyError ("'" ++ key ++ "'")), s)
  /\ In key ["llm"; "config"; "ollama_base_url"; "model"].
Proof.
  intros Hkey. split; [exact (@call_ollama_api_missing_aux _ E self prompt s key Hkey)|].
  unfold first_missing_key in Hkey.
  destruct (llm (memory_config (self_config self))) as [sec|];
    [| injection Hkey as <-; cbn; tauto].
  destruct (llm_config sec) as [lc|]; [| injection Hkey as <-; cbn; tauto].
  destruct (ollama_base_url lc); [| injection Hkey as <-; cbn; tauto].
  destruct (model lc); [discriminate | injection Hkey as <-; cbn; tauto].
Qed.

(** X7.  With ['chat_options'] missing or a dictionary, a reply that
    [raise_for_status] lets through but whose body is not JSON makes the
    client raise the decoding error with the decoder's message, a
    [RequestException], after the single request. *)
Theorem call_ollama_api_bad_json {W : Type} (E : Externals W) (self : MemoryManager)
    (base_url model_name : string) (lc : LlmConfig) (prompt : string) (s : state W)
    (resp : Response) (w' : W) (msg : string) :
  client_configured self base_url model_name lc ->
  chat_options_usable self ->
  requests_post E (url_of base_url) (payload_of self model_name lc prompt) (timeout_of self)
    (world s) = (Ok resp, w') ->
  status_code resp < 400 \/ 600 <= status_code resp ->
  json_body resp = NotJson msg ->
  exists e,
    _call_ollama_api E self prompt s
    = (Raise e, St w' (trace s ++ [Ev (request_of self base_url model_name lc prompt) true]))
    /\ exn_cls e = JSONDecodeError
    /\ exn_str e = msg
    /\ is_RequestException e = true.
Proof.
  intros Hc Hu Hpost Hst Hbody.
  rewrite (@call_ollama_api_configured _ E self base_url model_name lc prompt s Hc Hu).
  erewrite bind_ok by (apply extern_eq; exact Hpost).
  erewrite bind_ok by (apply raise_for_status_ok; exact Hst).
  unfold response_json. rewrite Hbody.
  eexists. split; [reflexivity | split; [reflexivity | split; reflexivity]].
Qed.

(** X8.  With the keys in place and ['chat_options'] missing or a
    dictionary, one call of the client is one request: a POST to
    [{ollama_base_url}/api/generate] with the model, the prompt as given and
    streaming off, recorded whether it returned or raised; there is no second
    attempt.  With the keys in place and ['chat_options'] not a dictionary,
    the client raises [AttributeError] and sends nothing. *)
Theorem call_ollama_api_single_post {W : Type} (E : Externals W) (self : MemoryManager)
    (base_url model_name : string) (lc : LlmConfig) (prompt : string) (s : state W) :
  client_configured self base_url model_name lc ->
  (chat_options_usable self ->
   exists r w' ok u p t,
     _call_ollama_api E self prompt s = (r, St w' (trace s ++ [Ev (CPost u p t) ok]))
     /\ requests_post E u p t (world s) = (fst (requests_post E u p t (world s)), w')
     /\ ok = is_ok (fst (requests_post E u p t (world s)))
     /\ u = base_url ++ "/api/generate"
     /\ pl_model p = model_name /\ pl_prompt p = prompt /\ pl_stream p = false)
  /\ (forall t,
        chat_options (self_config self) = Some (ChatOther t) ->
        _call_ollama_api E self prompt s
        = (Raise (Exn AttributeError
                    ("'" ++ other_name t ++ "' object has no attribute 'get'")), s)).
Proof.
  intros Hc. split.
  - intros Hu.
    destruct (@call_ollama_api_post_aux _ E self base_url model_name lc prompt s Hc Hu)
      as [r [Hr _]].
    eexists r, _, _, _, _, _. split; [exact Hr|].
    repeat split. now destruct (requests_post E _ _ _ (world s)).
  - intros t Ht.
    exact (@call_ollama_api_unusable _ E self base_url model_name lc prompt s t Hc Ht).
Qed.

Lemma call_ollama_api_missing_key_witness :
  _call_ollama_api Mock.E Mock.manager_no_url "Hello" (Mock.start Mock.w0)
  = (Raise (Exn KeyError "'ollama_base_url'"), Mock.start Mock.w0).
Proof.
  exact (proj1 (@call_ollama_api_missing_key _ Mock.E Mock.manager_no_url "Hello"
                  "ollama_base_url" (Mock.start Mock.w0) eq_refl)).
Defined.

Lemma call_ollama_api_bad_json_witness :
  let w := Mock.set_http Mock.w0 (Ok Mock.html_page) in
  exists e s',
    _call_ollama_api Mock.E Mock.manager "Hello" (Mock.start w) = (Raise e, s')
    /\ exn_cls e = JSONDecodeError
    /\ exn_str e = "Expecting value: line 1 column 1 (char 0)".
Proof.
  intros w.
  destruct (@call_ollama_api_bad_json _ Mock.E Mock.manager _ _ _ "Hello" (Mock.start w)
              Mock.html_page w _ mock_client_configured mock_usable eq_refl
              (or_introl eq_refl) eq_refl)
    as (e & Hrun & Hcls & Hmsg & _).
  eexists e, _. split; [exact Hrun | split; [exact Hcls | exact Hmsg]].
Defined.

Lemma mock_null_chat_configured :
  client_configured Mock.manager_null_chat "http://localhost:11434" "llama3"
    {| ollama_base_url := Some "http://localhost:11434"; model := Some "llama3";
       max_tokens := None |}.
Proof.
  split; [| reflexivity | reflexivity].
  eexists. split; reflexivity.
Defined.

Lemma call_ollama_api_single_post_witness :
  (exists r w' ok p t,
      _call_ollama_api Mock.E Mock.manager "Hello" (Mock.start Mock.w0)
      = (r, St w' [Ev (CPost "http://localhost:11434/api/generate" p t) ok])
      /\ pl_prompt p = "Hello")
  /\ _call_ollama_api Mock.E Mock.manager_null_chat "Hello" (Mock.start Mock.w0)
     = (Raise (Exn AttributeError "'NoneType' object has no attribute 'get'"),
        Mock.start Mock.w0).
Proof.
  split.
  - destruct (proj1 (@call_ollama_api_single_post _ Mock.E Mock.manager _ _ _ "Hello"
                       (Mock.start Mock.w0) mock_client_configured) mock_usable)
      as (r & w' & ok & u & p & t & Hrun & _ & _ & Hu & _ & Hp & _).
    exists r, w', ok, p, t. split; [| exact Hp].
    rewrite Hrun, Hu. reflexivity.
  - exact (proj2 (@call_ollama_api_single_post _ Mock.E Mock.manager_null_chat _ _ _ "Hello"
                    (Mock.start Mock.w0) mock_null_chat_configured) TNone eq_refl).
Defined.

(** ** Further properties: the chat turn *)

(** X9.  One [chat] turn does one of two things.  When its limit cannot be
    resolved (['chat_options'] is not a dictionary and no truthy
    [max_context_memories] is given) it raises [AttributeError] without
    calling anything.  Otherwise it returns a string after exactly one search
    with the resolved user and limit, then one or two requests for a prompt,
    then at most one generation request; it makes no other call: it never
    writes or deletes a memory and never sleeps. *)
Theorem chat_calls {W : Type} (E : Externals W) (self : MemoryManager)
    (query : string) (user_id : option string) (max_context_memories : option Z)
    (s : state W) :
  let uid := or_str user_id (self_user_id self) in
  let limit := or_int max_context_memories (configured_limit self) in
  (limit_given max_context_memories = false
   /\ exists t,
        chat_options (self_config self) = Some (ChatOther t)
        /\ chat E self query user_id max_context_memories s
           = (Raise (Exn AttributeError
                       ("'" ++ other_name t ++ "' object has no attribute 'get'")), s))
  \/ ((limit_given max_context_memories = true \/ chat_options_usable self)
      /\ exists text s' ok pevs gevs,
           chat E self query user_id max_context_memories s = (Ok text, s')
           /\ trace s' = (trace s ++ Ev (CSearch query uid limit) ok :: pevs ++ gevs)%list
           /\ forallb is_get_prompt pevs = true
           /\ (1 <= length pevs <= 2)%nat
           /\ forallb is_post gevs = true
           /\ (length gevs <= 1)%nat).
Proof.
  intros uid limit.
  destruct (limit_given max_context_memories) eqn:Hg.
  - right. split; [now left|].
    exact (@chat_shape _ E self query user_id max_context_memories s (or_introl Hg)).
  - destruct (usable_or_other self) as [Hu | [t Ht]].
    + right. split; [now right|].
      exact (@chat_shape _ E self query user_id max_context_memories s (or_intror Hu)).
    + left. split; [reflexivity|]. exists t. split; [exact Ht|].
      unfold chat.
      now rewrite (bind_raise _ _ _ (@limit_unresolved _ self max_context_memories t s Ht Hg)).
Qed.

(** X10.  A turn in which every step works, with ['chat_options'] missing or
    a dictionary: the context given to the template service is the formatted
    search result, the prompt sent to the endpoint is the text the service
    returned, and [chat] answers with the reply's text stripped, after exactly
    these three calls. *)
Theorem chat_success {W : Type} (E : Externals W) (self : MemoryManager)
    (base_url model_name : string) (lc : LlmConfig)
    (query : string) (user_id : option string) (max_context_memories : option Z)
    (s : state W) (d : MemResult) (w1 w2 w3 : W) (prompt : string) (resp : Response)
    (body : list (string * json)) (text : string) :
  let uid := or_str user_id (self_user_id self) in
  let limit := or_int max_context_memories (configured_limit self) in
  let bindings := [("user_id", uid); ("context", format_context uid (Some d));
                   ("query", query)] in
  client_configured self base_url model_name lc ->
  chat_options_usable self ->
  memory_search E query uid limit (world s) = (Ok (Listed d), w1) ->
  get_prompt E "chat" "user_interaction" bindings w1 = (Ok prompt, w2) ->
  requests_post E (url_of base_url) (payload_of self model_name lc prompt) (timeout_of self) w2
  = (Ok resp, w3) ->
  status_code resp < 400 \/ 600 <= status_code resp ->
  json_body resp = Json (JObject body) ->
  dict_get "response" body = Some (JString text) ->
  chat E self query user_id max_context_memories s
  = (Ok (Py.strip text),
     St w3 (trace s ++ [Ev (CSearch query uid limit) true;
                        Ev (CGetPrompt "chat" "user_interaction" bindings) true;
                        Ev (request_of self base_url model_name lc prompt) true])).
Proof.
  intros uid limit bindings Hc Hu Hs Hp Hpost Hst Hbody Htext.
  pose proof (@chat_search_run _ E self query user_id limit s _ w1 Hs) as Hsm.
  fold uid in Hsm. cbn [is_ok as_dict] in Hsm.
  assert (Hrp : resolve_prompt E uid (format_context uid (Some d)) query
                  (St w1 (trace s ++ [Ev (CSearch query uid limit) true]))
                = (Ok prompt,
                   St w2 ((trace s ++ [Ev (CSearch query uid limit) true])
                          ++ [Ev (CGetPrompt "chat" "user_interaction" bindings) true]))).
  { unfold resolve_prompt. erewrite try_catch_ok; [reflexivity|].
    apply extern_eq. exact Hp. }
  pose proof (@call_ollama_api_reply _ E self base_url model_name lc prompt
                (St w2 ((trace s ++ [Ev (CSearch query uid limit) true])
                        ++ [Ev (CGetPrompt "chat" "user_interaction" bindings) true]))
                resp w3 (JObject body) Hc Hu Hpost Hst Hbody) as Hg.
  rewrite (answer_text body Htext) in Hg.
  rewrite (@chat_of_steps _ E self query user_id max_context_memories s _ _ _ _ _ _
             (or_intror Hu) Hsm Hrp Hg).
  cbn [chat_answer trace]. now rewrite <- !app_assoc.
Qed.

Lemma chat_success_witness :
  chat Mock.E Mock.manager "What do I like?" (Some "alice") (Some 2) (Mock.start Mock.w0)
  = (Ok "You like pizza.",
     St Mock.w0
        [Ev (CSearch "What do I like?" "alice" 2) true;
         Ev (CGetPrompt "chat" "user_interaction"
               [("user_id", "alice");
                ("context", "Facts about alice:" ++ Py.nl ++ Py.bullet ++ " Drinks tea");
                ("query", "What do I like?")]) true;
         Ev (request_of Mock.manager "http://localhost:11434" "llama3"
               {| ollama_base_url := Some "http://localhost:11434"; model := Some "llama3";
                  max_tokens := None |}
               ("Answer from the facts."
                ++ Mock.render
                     [("user_id", "alice");
                      ("context", "Facts about alice:" ++ Py.nl ++ Py.bullet ++ " Drinks tea");
                      ("query", "What do I like?")])) true]).
Proof.
  refine (@chat_success _ Mock.E Mock.manager _ _ _ "What do I like?" (Some "alice") (Some 2)
            (Mock.start Mock.w0) {| results := Some [Mock.tea] |} Mock.w0 Mock.w0 Mock.w0
            _ (Mock.ok_response " You like pizza. ") _ " You like pizza. "
            mock_client_configured mock_usable eq_refl eq_refl eq_refl _ eq_refl eq_refl).
  left. reflexivity.
Defined.



(** ** Further properties: the context and the default user *)

Lemma concat_cons (x : string) (xs : list string) :
  String.concat "" (x :: xs) = x ++ String.concat "" xs.
Proof. destruct xs; cbn; [now rewrite append_nil_r | reflexivity]. Qed.

Lemma contains_append_l (a text needle : string) :
  contains text needle -> contains (a ++ text) needle.
Proof.
  intros (before & after & ->). exists (a ++ before), after. now rewrite append_assoc.
Qed.

Lemma contains_append_r (text b needle : string) :
  contains text needle -> contains (text ++ b) needle.
Proof.
  intros (before & after & ->). exists before, (after ++ b). now rewrite !append_assoc.
Qed.

Lemma contains_self (text : string) : contains text text.
Proof. exists "", "". cbn. now rewrite append_nil_r. Qed.

Lemma concat_contains (x : string) (xs : list string) :
  In x xs -> contains (String.concat "" xs) x.
Proof.
  induction xs as [|y xs IH]; [contradiction|].
  intros [-> | Hin]; rewrite concat_cons.
  - apply contains_append_r, contains_self.
  - apply contains_append_l, IH, Hin.
Qed.

Lemma format_context_facts (user_id : string) (r : MemoryRecord) (rs : list MemoryRecord) :
  format_context user_id (Some {| results := Some (r :: rs) |}) = facts_block user_id (r :: rs).
Proof.
  unfold format_context, facts_block.
  cbn [truthy_results has_results results negb get_or].
  rewrite map_map, !append_assoc. do 3 f_equal.
  apply (nl_join_lines (fun x => Py.bullet ++ " " ++ memory x)).
Qed.

(** X12.  The context always names the user, and every fact of the search
    result is in it whole, on a line that starts with the bullet: nothing is
    cut or dropped. *)
Theorem format_context_keeps_facts (user_id : string) (memories : option MemResult) :
  contains (format_context user_id memories) user_id
  /\ forall l r,
       memories = Some {| results := Some l |} -> In r l ->
       contains (format_context user_id memories)
                (Py.nl ++ Py.bullet ++ " " ++ memory r).
Proof.
  split.
  - unfold format_context. destruct (negb (truthy_results memories)).
    + apply contains_append_l, contains_append_r, contains_self.
    + apply contains_append_r. rewrite <- append_assoc.
      apply contains_append_r, contains_append_l, contains_self.
  - intros l r -> Hin. destruct l as [|x l]; [contradiction|].
    rewrite format_context_facts. unfold facts_block.
    do 3 apply contains_append_l.
    apply (concat_contains (bullet_line r)). now apply in_map.
Qed.

Lemma format_context_keeps_facts_witness :
  contains (format_context "bruce" (Some {| results := Some [Mock.nyc; Mock.pizza] |}))
           (Py.nl ++ Py.bullet ++ " Likes pizza").
Proof.
  refine (proj2 (format_context_keeps_facts "bruce"
                   (Some {| results := Some [Mock.nyc; Mock.pizza] |}))
                [Mock.nyc; Mock.pizza] Mock.pizza eq_refl _).
  right. left. reflexivity.
Defined.

(** X13.  A manager built from a configuration without
    [processing_options.user_id] works for the user ['default']: that is the
    user a search or a listing without [user_id] is made for. *)
Theorem init_default_user (cfg : Config) :
  (processing_options cfg = None
   \/ exists po, processing_options cfg = Some po /\ po_user_id po = None) ->
  self_user_id (init cfg) = "default"
  /\ (forall (W : Type) (E : Externals W) query limit (s : state W),
        exists r w' ok,
          search_memories E (init cfg) query None limit s
          = (r, St w' (trace s ++ [Ev (CSearch query "default" limit) ok])))
  /\ (forall (W : Type) (E : Externals W) (s : state W),
        exists r w' ok,
          get_all_memories E (init cfg) None s
          = (r, St w' (trace s ++ [Ev (CGetAll "default") ok]))).
Proof.
  intros H.
  assert (Hd : self_user_id (init cfg) = "default").
  { unfold init. cbn [self_user_id].
    destruct H as [-> | (po & -> & Hpo)]; [reflexivity | now rewrite Hpo]. }
  split; [exact Hd | split].
  - intros W E query limit s.
    destruct (memory_search E query "default" limit (world s)) as [o w1] eqn:Hs.
    pose proof (@search_memories_run _ E (init cfg) query None limit s o w1) as Hrun.
    cbn [or_str] in Hrun. rewrite Hd in Hrun. eexists _, w1, _. exact (Hrun Hs).
  - intros W E s.
    destruct (memory_get_all E "default" (world s)) as [o w1] eqn:Hg.
    pose proof (@get_all_memories_run _ E (init cfg) None s o w1) as Hrun.
    cbn [or_str] in Hrun. rewrite Hd in Hrun. eexists _, w1, _. exact (Hrun Hg).
Qed.

Lemma init_default_user_witness :
  self_user_id Mock.manager_no_url = "default"
  /\ exists r w' ok,
       search_memories Mock.E Mock.manager_no_url "tea" None 5 (Mock.start Mock.w0)
       = (r, St w' [Ev (CSearch "tea" "default" 5) ok]).
Proof.
  destruct (init_default_user
              {| memory_config :=
                   {| llm := Some {| llm_config :=
                        Some {| ollama_base_url := None; model := Some "llama3";
                                max_tokens := Some 256 |} |} |};
                 chat_options := None;
                 processing_options := None |} (or_introl eq_refl))
    as (Hd & Hsearch & _).
  split; [exact Hd|].
  exact (Hsearch _ Mock.E "tea" 5 (Mock.start Mock.w0)).
Defined.

Lemma or_str_explicit (u d : string) : u <> "" -> or_str (Some u) d = u.
Proof. intros H. destruct u; [contradiction | reflexivity]. Qed.

(** X14.  An explicit, non-empty [user_id] and a non-zero
    [max_context_memories] are used as they are, whatever the configuration
    says: [chat] searches for that user with that limit (a negative limit is
    passed on too), and [reset_memories] lists that user. *)
Theorem explicit_arguments_win {W : Type} (E : Externals W) (self : MemoryManager)
    (query user : string) (n : Z) (s : state W) :
  user <> "" -> n <> 0 ->
  (exists text s' ok rest,
      chat E self query (Some user) (Some n) s = (Ok text, s')
      /\ trace s' = (trace s ++ Ev (CSearch query user n) ok :: rest)%list)
  /\ (exists k s' ok rest,
        reset_memories E self (Some user) s = (Ok k, s')
        /\ trace s' = (trace s ++ Ev (CGetAll user) ok :: rest)%list).
Proof.
  intros Hu Hn. split.
  - assert (Hl : limit_given (Some n) = true \/ chat_options_usable self).
    { left. cbn [limit_given]. apply Z.eqb_neq in Hn. now rewrite Hn. }
    destruct (@chat_trace _ E self query (Some user) (Some n) s Hl)
      as (text & s' & ok & rest & Hrun & Htr).
    rewrite (or_str_explicit (self_user_id self) Hu) in Htr.
    cbn [or_int] in Htr. apply Z.eqb_neq in Hn. rewrite Hn in Htr.
    now exists text, s', ok, rest.
  - destruct (reset_memories_total E self (Some user) s)
      as (k & s' & ok & rest & Hrun & Htr & _).
    rewrite (or_str_explicit (self_user_id self) Hu) in Htr.
    now exists k, s', ok, rest.
Qed.

Lemma explicit_arguments_win_witness :
  exists text s' ok rest,
    chat Mock.E Mock.manager "What do I like?" (Some "alice") (Some (-1))
      (Mock.start Mock.w0) = (Ok text, s')
    /\ trace s' = Ev (CSearch "What do I like?" "alice" (-1)) ok :: rest.
Proof.
  assert (Hu : "alice" <> "") by discriminate.
  assert (Hn : -1 <> 0) by discriminate.
  exact (proj1 (explicit_arguments_win Mock.E Mock.manager "What do I like?"
                  (Mock.start Mock.w0) Hu Hn)).
Defined.
